(** * quasiquotes.c._loader: the dynamic function loader

    A shallow embedding of [src/quasiquotes/c/_loader.c].  The module has
    one operation, [create_callable], which is a straight line of calls
    into the host interpreter (CPython) and the OS dynamic loader
    (dlfcn).  The embedding keeps that shape:

    - [prog] is the type of straight-line programs over the external
      calls the C function makes ([event]);
    - [create_callable] is the C function, statement by statement;
    - [runs] relates a program to every sequence of answers the outside
      world may give, so that facts about the code hold whatever the
      interpreter and the loader do;
    - [World], [handle] and [exec] are an executable reference model of
      the interpreter and of the loader, on which concrete calls run. *)

From stdpp Require Import gmap strings list fin_maps.
From Stdlib Require Import ZArith Ascii String.

Local Open Scope string_scope.
Local Open Scope Z_scope.

(** ** C data *)

(** Pointers ([void *], [PyObject *], [PyMethodDef *]) are addresses. *)
Definition NULL : Z := 0.

(** [RTLD_LAZY] and [RTLD_NOW] of <dlfcn.h> (the glibc values). *)
Definition RTLD_LAZY : Z := 1.
Definition RTLD_NOW : Z := 2.

(** The exception classes of the host interpreter that occur here. *)
Inductive PyExc : Type :=
| PyExc_TypeError
| PyExc_ValueError
| PyExc_UnicodeEncodeError
| PyExc_SystemError
| PyExc_OSError.

(** Python values as they can be handed to the function in [args] and
    [kwargs].  A [str] is its sequence of code points; [PyRef] is any
    other heap object, by address. *)
Inductive PyValue : Type :=
| PyNone
| PyBool (b : bool)
| PyLong (n : Z)
| PyBytes (b : string)
| PyUnicode (cps : list N)
| PyRef (addr : Z).

(** [struct PyMethodDef]: the function descriptor a shared object
    exports. *)
Record PyMethodDef : Type := {
  ml_name : string;
  ml_meth : Z;
  ml_flags : Z;
  ml_doc : option string
}.

(** [PyCFunctionObject]: the callable built around a descriptor. *)
Record PyCFunctionObject : Type := {
  m_ml : Z;
  m_self : Z;
  m_module : Z
}.

(** ** External calls *)

(** The calls [create_callable] and its neighbours can make, indexed by
    the type of what comes back.  [PyArg_ParseTupleAndKeywords] answers
    [None] for a zero return and otherwise the values stored through its
    output pointers; [dlerror] answers [None] for a null pointer. *)
Inductive event : Type -> Type :=
| PyArg_ParseTupleAndKeywords
    (args : list PyValue) (kwargs : option (list (PyValue * PyValue)))
    (format : string) (keywords : list string) : event (option (list string))
| dlopen (filename : string) (flags : Z) : event Z
| dlsym (handle : Z) (symbol : string) : event Z
| dlerror : event (option string)
| dlclose (handle : Z) : event Z
| PyErr_SetString (exc : PyExc) (message : option string) : event unit
| PyCFunction_NewEx (ml : Z) (self : Z) (module : Z) : event Z.

(** Straight-line programs over the external calls. *)
Inductive prog (R : Type) : Type :=
| Ret (r : R)
| Call {X : Type} (e : event X) (k : X -> prog R).
Arguments Ret {R} r.
Arguments Call {R X} e k.

Fixpoint prog_bind {A B : Type} (k : A -> prog B) (p : prog A) : prog B :=
  match p with
  | Ret a => k a
  | Call e k' => Call e (fun x => prog_bind k (k' x))
  end.

#[global] Instance prog_ret : MRet prog := fun _ r => Ret r.
#[global] Instance prog_mbind : MBind prog := fun _ _ k p => prog_bind k p.

Definition call {X : Type} (e : event X) : prog X := Call e Ret.

(** ** The source *)

(** The [char *] stored through the [i]-th output pointer of a
    successful argument parse. *)
Definition out_charp (outs : list string) (i : nat) : string :=
  default "" (outs !! i).

(** [create_callable], lines 4-29 of _loader.c. *)
Definition create_callable
    (self : Z) (args : list PyValue) (kwargs : option (list (PyValue * PyValue)))
    : prog Z :=
  let keywords := ["filename"] in
  parsed ← call (PyArg_ParseTupleAndKeywords args kwargs "s:create_callable" keywords);
  match parsed with
  | None => mret NULL
  | Some outs =>
      let filename := out_charp outs 0 in
      sohandle ← call (dlopen filename RTLD_LAZY);
      if sohandle =? NULL then
        msg ← call dlerror;
        _ ← call (PyErr_SetString PyExc_OSError msg);
        mret NULL
      else
        qq_methoddef ← call (dlsym sohandle "__qq_methoddef");
        if qq_methoddef =? NULL then
          msg ← call dlerror;
          _ ← call (PyErr_SetString PyExc_OSError msg);
          mret NULL
        else
          call (PyCFunction_NewEx qq_methoddef NULL NULL)
  end.

(** ** The world outside the module *)

(** A shared object on disk: the addresses of its exported symbols, the
    function descriptors its data segment holds (by address), and the
    function references that no loaded object satisfies. *)
Record SharedObject : Type := {
  so_exports : gmap string Z;
  so_data : gmap Z PyMethodDef;
  so_unresolved : list string
}.

(** An entry of the loader's table of loaded objects. *)
Record LoadedObject : Type := {
  lo_name : string;
  lo_image : SharedObject;
  lo_refs : nat
}.

(** The state the external calls read and change: the loadable objects,
    the process-wide table of loaded objects (by name and by handle),
    the descriptors mapped into the address space, the loader's pending
    diagnostic, the interpreter's error indicator and its heap of
    function objects.  Handles and object addresses are never null: the
    tables are keyed by the positive part of the address. *)
Record World : Type := {
  files : gmap string SharedObject;
  by_name : gmap string positive;
  objects : gmap positive LoadedObject;
  mem : gmap Z PyMethodDef;
  dl_err : option string;
  err_indicator : option (PyExc * string);
  heap : gmap positive PyCFunctionObject
}.

(** What a table holds at an address. *)
Definition deref {A : Type} (m : gmap positive A) (addr : Z) : option A :=
  match addr with
  | Z.pos a => m !! a
  | _ => None
  end.

Definition set_dl_err (m : option string) (w : World) : World :=
  {| files := files w; by_name := by_name w; objects := objects w; mem := mem w;
     dl_err := m; err_indicator := err_indicator w; heap := heap w |}.

Definition set_err_indicator (e : option (PyExc * string)) (w : World) : World :=
  {| files := files w; by_name := by_name w; objects := objects w; mem := mem w;
     dl_err := dl_err w; err_indicator := e; heap := heap w |}.

Definition set_heap (h : gmap positive PyCFunctionObject) (w : World) : World :=
  {| files := files w; by_name := by_name w; objects := objects w; mem := mem w;
     dl_err := dl_err w; err_indicator := err_indicator w; heap := h |}.

Definition set_loaded (n : gmap string positive) (o : gmap positive LoadedObject)
    (m : gmap Z PyMethodDef) (w : World) : World :=
  {| files := files w; by_name := n; objects := o; mem := m;
     dl_err := dl_err w; err_indicator := err_indicator w; heap := heap w |}.

(** *** The dynamic loader (dlfcn)

    After dlopen(3), dlsym(3), dlerror(3) and dlclose(3); the wording of
    the diagnostics is glibc's.  A diagnostic stays pending until
    [dlerror] hands it out, as POSIX words it (glibc also drops it at the
    next call into the loader). *)

Module Dl.

Definition retain (o : LoadedObject) : LoadedObject :=
  {| lo_name := lo_name o; lo_image := lo_image o; lo_refs := S (lo_refs o) |}.

Definition release (o : LoadedObject) : LoadedObject :=
  {| lo_name := lo_name o; lo_image := lo_image o; lo_refs := pred (lo_refs o) |}.

(** Bit 0 of the mode asks for lazy binding, bit 1 for binding at load
    time; one of them must be given. *)
Definition binds_lazily (flags : Z) : bool :=
  Z.testbit flags 0 && negb (Z.testbit flags 1).
Definition binds_now (flags : Z) : bool := Z.testbit flags 1.

(** An object that is already loaded is handed out again with one more
    reference; a new one is mapped, unless it cannot be found or it is
    to be bound at load time and has references nothing satisfies. *)
Definition dlopen (filename : string) (flags : Z) (w : World) : Z * World :=
  if negb (Z.testbit flags 0 || Z.testbit flags 1) then
    (NULL, set_dl_err (Some "invalid mode for dlopen(): Invalid argument") w)
  else
    match by_name w !! filename with
    | Some a =>
        (Z.pos a, set_loaded (by_name w) (alter retain a (objects w)) (mem w) w)
    | None =>
        match files w !! filename with
        | None =>
            (NULL, set_dl_err (Some (filename ++
               ": cannot open shared object file: No such file or directory")) w)
        | Some img =>
            match binds_now flags, so_unresolved img with
            | true, sym :: _ =>
                (NULL, set_dl_err (Some (filename ++ ": undefined symbol: " ++ sym)) w)
            | _, _ =>
                let a := fresh (dom (objects w)) in
                (Z.pos a,
                 set_loaded (<[filename := a]> (by_name w))
                   (<[a := {| lo_name := filename; lo_image := img; lo_refs := 1 |}]>
                      (objects w))
                   (mem w ∪ so_data img) w)
            end
        end
    end.

(** A symbol whose value is the null address is found, and reported as
    [NULL] with no diagnostic. *)
Definition dlsym (handle : Z) (symbol : string) (w : World) : Z * World :=
  match deref (objects w) handle with
  | None => (NULL, set_dl_err (Some "invalid handle") w)
  | Some o =>
      match so_exports (lo_image o) !! symbol with
      | Some addr => (addr, w)
      | None =>
          (NULL, set_dl_err (Some (lo_name o ++ ": undefined symbol: " ++ symbol)) w)
      end
  end.

(** The pending diagnostic is handed out once. *)
Definition dlerror (w : World) : option string * World :=
  (dl_err w, set_dl_err None w).

(** The last reference unmaps the object. *)
Definition dlclose (handle : Z) (w : World) : Z * World :=
  match handle, deref (objects w) handle with
  | Z.pos a, Some o =>
      if (lo_refs o <=? 1)%nat then
        (0, set_loaded (filter (fun kv => kv.2 ≠ a) (by_name w))
              (delete a (objects w))
              (mem w ∖ so_data (lo_image o)) w)
      else
        (0, set_loaded (by_name w) (<[a := release o]> (objects w)) (mem w) w)
  | _, _ => (-1, set_dl_err (Some "invalid handle") w)
  end.

End Dl.

(** *** The host interpreter (CPython)

    After the C API of CPython 3: the keyword argument parser of
    Python/getargs.c, [PyErr_SetString] and the function objects of
    Objects/methodobject.c.  The texts of the messages are abridged. *)

Module Py.

#[global] Instance PyExc_eq_dec : EqDecision PyExc.
Proof. solve_decision. Defined.

#[global] Instance PyValue_eq_dec : EqDecision PyValue.
Proof. solve_decision. Defined.

Definition byte (n : N) : ascii := ascii_of_N n.

(** UTF-8 of one code point; surrogates and values past U+10FFFF have
    none. *)
Definition utf8_of_code_point (c : N) : option (list ascii) :=
  if (c <? 0x80)%N then Some [byte c]
  else if (c <? 0x800)%N then
    Some [byte (0xC0 + c / 0x40); byte (0x80 + c mod 0x40)]
  else if (c <? 0x10000)%N then
    if ((0xD800 <=? c) && (c <? 0xE000))%N then None
    else Some [byte (0xE0 + c / 0x1000); byte (0x80 + (c / 0x40) mod 0x40);
               byte (0x80 + c mod 0x40)]
  else if (c <? 0x110000)%N then
    Some [byte (0xF0 + c / 0x40000); byte (0x80 + (c / 0x1000) mod 0x40);
          byte (0x80 + (c / 0x40) mod 0x40); byte (0x80 + c mod 0x40)]
  else None.

Fixpoint PyUnicode_AsUTF8 (cps : list N) : option string :=
  match cps with
  | [] => Some ""
  | c :: cps' =>
      bs ← utf8_of_code_point c;
      rest ← PyUnicode_AsUTF8 cps';
      Some (string_of_list_ascii bs ++ rest)%string
  end.

(** The [str] object for a C string of ASCII characters. *)
Definition PyUnicode_FromString (s : string) : PyValue :=
  PyUnicode (N_of_ascii <$> list_ascii_of_string s).

(** [strlen]: the bytes before the first zero byte. *)
Fixpoint strlen (s : string) : nat :=
  match s with
  | EmptyString => 0%nat
  | String c s' => if Ascii.eqb c zero then 0%nat else S (strlen s')
  end.

(** The format unit [s]: a [str], encoded as UTF-8, with no zero byte
    inside. *)
Definition convert_s (v : PyValue) : PyExc * string + string :=
  match v with
  | PyUnicode cps =>
      match PyUnicode_AsUTF8 cps with
      | None => inl (PyExc_UnicodeEncodeError, "surrogates not allowed")
      | Some sarg =>
          if (strlen sarg =? String.length sarg)%nat then inr sarg
          else inl (PyExc_ValueError, "embedded null character")
      end
  | _ => inl (PyExc_TypeError, "argument must be str")
  end.

(** The format units before the function name or the message.  Only
    [s] is part of this model. *)
Fixpoint format_units (format : string) : option (list ascii) :=
  match format with
  | EmptyString => Some []
  | String c rest =>
      if Ascii.eqb c ":" || Ascii.eqb c ";" then Some []
      else if Ascii.eqb c "s" then cons c <$> format_units rest
      else None
  end.

Definition PyDict_GetItemString (d : list (PyValue * PyValue)) (key : string)
    : option PyValue :=
  snd <$> List.find (fun kv => bool_decide (kv.1 = PyUnicode_FromString key)) d.

(** One round of the conversion loop per keyword-list entry: the next
    positional argument if there is one, else the keyword argument of
    that name while keyword arguments remain.  Returns the converted
    values and the number of keyword arguments not yet used. *)
Fixpoint convert_parameters (units : list ascii) (kwlist : list string)
    (args : list PyValue) (kwargs : list (PyValue * PyValue)) (nkwargs : nat)
    : PyExc * string + list string * nat :=
  match kwlist, units with
  | [], [] => inr ([], nkwargs)
  | [], _ :: _ =>
      inl (PyExc_SystemError, "more argument specifiers than keyword list entries")
  | _ :: _, [] =>
      inl (PyExc_SystemError, "More keyword list entries than format specifiers")
  | kw :: kwlist', _ :: units' =>
      let current_arg :=
        match args with
        | a :: _ => Some (a, nkwargs)
        | [] =>
            match nkwargs with
            | O => None
            | S n => (fun v => (v, n)) <$> PyDict_GetItemString kwargs kw
            end
        end in
      match current_arg with
      | None => inl (PyExc_TypeError, "missing required argument")
      | Some (v, nkwargs') =>
          match convert_s v with
          | inl err => inl err
          | inr out =>
              match convert_parameters units' kwlist' (tail args) kwargs nkwargs' with
              | inl err => inl err
              | inr (outs, unused) => inr (out :: outs, unused)
              end
          end
      end
  end.

(** The closing checks, made when some keyword arguments were not used
    up by the loop: none of them names a parameter already given by
    position, and every key is a [str] that names a parameter. *)
Definition given_by_name_and_position (kwlist : list string) (nargs : nat)
    (kwargs : list (PyValue * PyValue)) : bool :=
  existsb (fun kw => bool_decide (is_Some (PyDict_GetItemString kwargs kw)))
    (take nargs kwlist).

Fixpoint extraneous_keyword (kwlist : list string)
    (kwargs : list (PyValue * PyValue)) : option (PyExc * string) :=
  match kwargs with
  | [] => None
  | (key, _) :: kwargs' =>
      match key with
      | PyUnicode _ =>
          if existsb (fun kw => bool_decide (key = PyUnicode_FromString kw)) kwlist
          then extraneous_keyword kwlist kwargs'
          else Some (PyExc_TypeError, "invalid keyword argument for this function")
      | _ => Some (PyExc_TypeError, "keywords must be strings")
      end
  end.

Definition check_keywords (kwlist : list string) (nargs : nat)
    (kwargs : list (PyValue * PyValue)) : option (PyExc * string) :=
  if given_by_name_and_position kwlist nargs kwargs then
    Some (PyExc_TypeError, "argument given by name and position")
  else extraneous_keyword kwlist kwargs.

(** [PyArg_ParseTupleAndKeywords] for formats of [s] units: [None]
    when the format is outside the model, else the exception raised or
    the values stored through the output pointers. *)
Definition vgetargskeywords (args : list PyValue)
    (kwargs : option (list (PyValue * PyValue)))
    (format : string) (kwlist : list string)
    : option (PyExc * string + list string) :=
  units ← format_units format;
  let d := default [] kwargs in
  let nargs := List.length args in
  let nkwargs := List.length d in
  if (List.length kwlist <? nargs + nkwargs)%nat then
    Some (inl (PyExc_TypeError, "function takes too many arguments"))
  else
    match convert_parameters units kwlist args d nkwargs with
    | inl err => Some (inl err)
    | inr (outs, O) => Some (inr outs)
    | inr (outs, S _) =>
        match check_keywords kwlist nargs d with
        | Some err => Some (inl err)
        | None => Some (inr outs)
        end
    end.

(** [PyErr_SetString] with a null message reads through the null
    pointer: undefined. *)
Definition PyErr_SetString (exc : PyExc) (message : option string) (w : World)
    : option (unit * World) :=
  msg ← message;
  Some (tt, set_err_indicator (Some (exc, msg)) w).

(** The bits of [ml_flags] that name a calling convention
    (methodobject.h). *)
Definition METH_VARARGS : Z := 0x0001.
Definition METH_KEYWORDS : Z := 0x0002.
Definition METH_NOARGS : Z := 0x0004.
Definition METH_O : Z := 0x0008.
Definition METH_FASTCALL : Z := 0x0080.
Definition METH_METHOD : Z := 0x0200.

Definition call_convention (flags : Z) : Z :=
  Z.land flags
    (Z.lor METH_VARARGS (Z.lor METH_FASTCALL (Z.lor METH_NOARGS
       (Z.lor METH_O (Z.lor METH_KEYWORDS METH_METHOD))))).

(** The flags with which a function that has no defining class can be
    made: one of the six calling conventions, whatever the other bits. *)
Definition call_flags_ok (flags : Z) : bool :=
  let convention := call_convention flags in
  (convention =? METH_VARARGS) || (convention =? Z.lor METH_VARARGS METH_KEYWORDS) ||
  (convention =? METH_FASTCALL) || (convention =? Z.lor METH_FASTCALL METH_KEYWORDS) ||
  (convention =? METH_NOARGS) || (convention =? METH_O).

(** What the constructor says of flags it refuses: the convention of a
    method with a defining class, when there is no class, or no
    convention at all. *)
Definition refusal_message (d : PyMethodDef) : string :=
  if call_convention (ml_flags d)
       =? Z.lor METH_METHOD (Z.lor METH_FASTCALL METH_KEYWORDS)
  then "attempting to create PyCMethod with a METH_METHOD flag but no class"
  else ml_name d ++ "() method: bad call flags".

(** [PyCFunction_NewEx] reads the flags, and for its message the name,
    of the descriptor behind [ml]: undefined when no descriptor is mapped
    there.  Flags it refuses raise [SystemError] and give [NULL];
    otherwise a function object is allocated and the
    three pointers are stored in it.  Memory does not run out in this
    model. *)
Definition PyCFunction_NewEx (ml self module : Z) (w : World) : option (Z * World) :=
  d ← mem w !! ml;
  if call_flags_ok (ml_flags d) then
    let a := fresh (dom (heap w)) in
    Some (Z.pos a,
          set_heap (<[a := {| m_ml := ml; m_self := self; m_module := module |}]>
                      (heap w)) w)
  else
    Some (NULL, set_err_indicator (Some (PyExc_SystemError, refusal_message d)) w).

(** What calling a function object comes to: the native entry point
    and the flags of its descriptor, and the receiver and arguments
    handed over. *)
Record NativeCall : Type := {
  nc_entry : Z;
  nc_flags : Z;
  nc_self : Z;
  nc_args : list PyValue;
  nc_kwargs : option (list (PyValue * PyValue))
}.

Definition PyCFunction_Call (w : World) (callable : Z) (args : list PyValue)
    (kwargs : option (list (PyValue * PyValue))) : option NativeCall :=
  f ← deref (heap w) callable;
  d ← mem w !! m_ml f;
  Some {| nc_entry := ml_meth d; nc_flags := ml_flags d; nc_self := m_self f;
          nc_args := args; nc_kwargs := kwargs |}.

End Py.

(** ** Running a program *)

(** A completed external call: what was asked and what came back. *)
Inductive entry : Type :=
| ParsedArgs (args : list PyValue) (kwargs : option (list (PyValue * PyValue)))
    (format : string) (keywords : list string) (outs : option (list string))
| Opened (filename : string) (flags : Z) (handle : Z)
| Resolved (handle : Z) (symbol : string) (addr : Z)
| Diagnosed (message : option string)
| Closed (handle : Z) (status : Z)
| ErrorSet (exc : PyExc) (message : option string)
| Constructed (ml self module : Z) (object : Z).

Definition log {X : Type} (e : event X) : X -> entry :=
  match e in event X return X -> entry with
  | PyArg_ParseTupleAndKeywords args kwargs format keywords =>
      ParsedArgs args kwargs format keywords
  | dlopen filename flags => Opened filename flags
  | dlsym handle symbol => Resolved handle symbol
  | dlerror => Diagnosed
  | dlclose handle => Closed handle
  | PyErr_SetString exc message => fun _ => ErrorSet exc message
  | PyCFunction_NewEx ml self module => Constructed ml self module
  end.

(** [runs p t r]: program [p] can return [r] after the calls and answers
    [t], for some behaviour of the outside world. *)
Fixpoint runs {R : Type} (p : prog R) (t : list entry) (r : R) : Prop :=
  match p with
  | Ret r' => t = [] ∧ r = r'
  | Call e k => ∃ x t', t = log e x :: t' ∧ runs (k x) t' r
  end.

(** The reference model answers each call; [None] is undefined
    behaviour. *)
Definition handle {X : Type} (e : event X) (w : World) : option (X * World) :=
  match e in event X return option (X * World) with
  | PyArg_ParseTupleAndKeywords args kwargs format keywords =>
      match Py.vgetargskeywords args kwargs format keywords with
      | None => None
      | Some (inl err) => Some (None, set_err_indicator (Some err) w)
      | Some (inr outs) => Some (Some outs, w)
      end
  | dlopen filename flags => Some (Dl.dlopen filename flags w)
  | dlsym h symbol => Some (Dl.dlsym h symbol w)
  | dlerror => Some (Dl.dlerror w)
  | dlclose h => Some (Dl.dlclose h w)
  | PyErr_SetString exc message => Py.PyErr_SetString exc message w
  | PyCFunction_NewEx ml self module => Py.PyCFunction_NewEx ml self module w
  end.

(** [exec p w]: the result of [p] started in world [w], the world it
    leaves and the calls it made. *)
Fixpoint exec {R : Type} (p : prog R) (w : World) : option (R * World * list entry) :=
  match p with
  | Ret r => Some (r, w, [])
  | Call e k =>
      match handle e w with
      | None => None
      | Some (x, w1) =>
          match exec (k x) w1 with
          | None => None
          | Some (r, w2, t) => Some (r, w2, log e x :: t)
          end
      end
  end.

(** ** Worked example *)

Module Example.

(** [libfoo.so] exports a descriptor of a function taking no argument
    ([METH_NOARGS] is 4); [libbar.so] exports something else. *)
Definition foo_def : PyMethodDef :=
  {| ml_name := "foo"; ml_meth := 4096; ml_flags := 4; ml_doc := None |}.

Definition libfoo : SharedObject :=
  {| so_exports := {["__qq_methoddef" := 8192]};
     so_data := {[8192 := foo_def]};
     so_unresolved := [] |}.

Definition libbar : SharedObject :=
  {| so_exports := {["bar" := 12288]}; so_data := ∅; so_unresolved := [] |}.

Definition world : World :=
  {| files := {["libfoo.so" := libfoo; "libbar.so" := libbar]};
     by_name := ∅; objects := ∅; mem := ∅;
     dl_err := None; err_indicator := None; heap := ∅ |}.

Definition str (s : string) : PyValue := Py.PyUnicode_FromString s.

End Example.

(** ** The vocabulary of the statements *)

(** The argument parse [create_callable] makes, with its answer. *)
Abbreviation Parse args kwargs outs :=
  (ParsedArgs args kwargs "s:create_callable" ["filename"] outs).

(** The four ways through [create_callable]. *)
Inductive path (args : list PyValue) (kwargs : option (list (PyValue * PyValue)))
    : list entry -> Z -> Prop :=
| path_arguments :
    path args kwargs [Parse args kwargs None] NULL
| path_open outs msg :
    path args kwargs
      [Parse args kwargs (Some outs);
       Opened (out_charp outs 0) RTLD_LAZY NULL;
       Diagnosed msg; ErrorSet PyExc_OSError msg] NULL
| path_symbol outs h msg :
    h ≠ NULL ->
    path args kwargs
      [Parse args kwargs (Some outs);
       Opened (out_charp outs 0) RTLD_LAZY h;
       Resolved h "__qq_methoddef" NULL;
       Diagnosed msg; ErrorSet PyExc_OSError msg] NULL
| path_callable outs h p r :
    h ≠ NULL -> p ≠ NULL ->
    path args kwargs
      [Parse args kwargs (Some outs);
       Opened (out_charp outs 0) RTLD_LAZY h;
       Resolved h "__qq_methoddef" p;
       Constructed p NULL NULL r] r.

(** The open attempts and the symbol lookups in a trace. *)
Definition opens (t : list entry) : nat :=
  List.length (List.filter (fun e => match e with Opened _ _ _ => true | _ => false end) t).

Definition lookups (t : list entry) : nat :=
  List.length (List.filter (fun e => match e with Resolved _ _ _ => true | _ => false end) t).

(** The one argument of a call that gives [filename] in one of the two
    accepted ways: alone in [args], or alone in [kwargs] under the name
    [filename]. *)
Definition filename_argument (args : list PyValue)
    (kwargs : option (list (PyValue * PyValue))) : option PyValue :=
  match args, default [] kwargs with
  | [v], [] => Some v
  | [], [(k, v)] =>
      if decide (k = Py.PyUnicode_FromString "filename") then Some v else None
  | _, _ => None
  end.

(** [n] calls in a row with the same arguments: what they return, the
    oldest first, and the world they leave. *)
Fixpoint call_times (n : nat) (self : Z) (args : list PyValue)
    (kwargs : option (list (PyValue * PyValue))) (w : World)
    : option (list Z * World) :=
  match n with
  | O => Some ([], w)
  | S n' =>
      match exec (create_callable self args kwargs) w with
      | None => None
      | Some (r, w1, _) =>
          match call_times n' self args kwargs w1 with
          | None => None
          | Some (rs, w2) => Some (r :: rs, w2)
          end
      end
  end.

(** The example world once [libfoo.so] has been loaded. *)
Definition world_with_libfoo : World :=
  set_loaded {["libfoo.so" := 1%positive]}
    {[1%positive := {| lo_name := "libfoo.so"; lo_image := Example.libfoo; lo_refs := 1 |}]}
    {[8192 := Example.foo_def]} Example.world.

(** A world whose one loadable object exports [__qq_methoddef] with the
    null address as its value. *)
Definition world_with_null_symbol : World :=
  {| files := {["libnull.so" := {| so_exports := {["__qq_methoddef" := NULL]};
                                   so_data := ∅; so_unresolved := [] |}]};
     by_name := ∅; objects := ∅; mem := ∅;
     dl_err := None; err_indicator := None; heap := ∅ |}.

(** A world whose one loadable object exports a descriptor with no
    calling convention in its flags. *)
Definition world_with_bad_flags : World :=
  {| files := {["libbad.so" :=
                 {| so_exports := {["__qq_methoddef" := 8192]};
                    so_data := {[8192 := {| ml_name := "bad"; ml_meth := 4096;
                                            ml_flags := 0; ml_doc := None |}]};
                    so_unresolved := [] |}]};
     by_name := ∅; objects := ∅; mem := ∅;
     dl_err := None; err_indicator := None; heap := ∅ |}.

(** A C string of 7-bit characters. *)
Definition is_ascii (s : string) : bool :=
  forallb (fun c => (N_of_ascii c <? 128)%N) (list_ascii_of_string s).

(** Finds where an entry sits in one of the four traces. *)
Ltac locate pre :=
  repeat (destruct pre as [|? pre]; simplify_eq/=); try done.

(** Goes through the entries a membership hypothesis allows. *)
Ltac members :=
  repeat match goal with
  | H : _ ∈ [] |- _ => by apply elem_of_nil in H
  | H : _ ∈ _ :: _ |- _ => apply elem_of_cons in H as [H|H]; simplify_eq
  end.

(** ** The code, whatever the outside world answers *)

Lemma create_callable_path self args kwargs t r :
  runs (create_callable self args kwargs) t r <-> path args kwargs t r.
Proof.
  unfold create_callable. cbn. split.
  - intros (x & t1 & -> & H). destruct x as [outs|]; cbn in H.
    + destruct H as (h & t2 & -> & H).
      destruct (Z.eqb_spec h NULL) as [->|Hh]; cbn in H.
      * destruct H as (m & t3 & -> & [] & t4 & -> & -> & ->). constructor.
      * destruct H as (p & t3 & -> & H).
        destruct (Z.eqb_spec p NULL) as [->|Hp]; cbn in H.
        -- destruct H as (m & t4 & -> & [] & t5 & -> & -> & ->). now constructor.
        -- destruct H as (r' & t4 & -> & -> & ->). now constructor.
    + destruct H as [-> ->]. constructor.
  - intros H. destruct H as [|outs msg|outs h msg Hh|outs h p r' Hh Hp].
    + exists None. eexists. split; [reflexivity|]. cbn. done.
    + exists (Some outs). eexists. split; [reflexivity|]. cbn.
      exists NULL. eexists. split; [reflexivity|]. cbn.
      exists msg. eexists. split; [reflexivity|].
      exists tt. eexists. split; [reflexivity|]. done.
    + exists (Some outs). eexists. split; [reflexivity|]. cbn.
      exists h. eexists. split; [reflexivity|].
      destruct (Z.eqb_spec h NULL); [done|]. cbn.
      exists NULL. eexists. split; [reflexivity|]. cbn.
      exists msg. eexists. split; [reflexivity|].
      exists tt. eexists. split; [reflexivity|]. done.
    + exists (Some outs). eexists. split; [reflexivity|]. cbn.
      exists h. eexists. split; [reflexivity|].
      destruct (Z.eqb_spec h NULL); [done|]. cbn.
      exists p. eexists. split; [reflexivity|].
      destruct (Z.eqb_spec p NULL); [done|]. cbn.
      exists r'. eexists. split; [reflexivity|]. done.
Qed.

(** What the reference model does is one of the things the outside
    world may do. *)
Lemma exec_runs {R : Type} (p : prog R) w r w' t :
  exec p w = Some (r, w', t) -> runs p t r.
Proof.
  revert w t. induction p as [r0|X e k IH]; intros w t H; cbn in *.
  - by inversion H.
  - destruct (handle e w) as [[x w1]|]; [|done].
    destruct (exec (k x) w1) as [[[r1 w2] t1]|] eqn:E; [|done].
    inversion H; subst. exists x, t1. split; [done|]. by eapply IH.
Qed.

(** [exec] on [create_callable], call by call. *)
Lemma exec_create_callable self args kwargs w :
  exec (create_callable self args kwargs) w =
  match Py.vgetargskeywords args kwargs "s:create_callable" ["filename"] with
  | None => None
  | Some (inl err) =>
      Some (NULL, set_err_indicator (Some err) w, [Parse args kwargs None])
  | Some (inr outs) =>
      let f := out_charp outs 0 in
      let hw := Dl.dlopen f RTLD_LAZY w in
      if hw.1 =? NULL then
        match dl_err hw.2 with
        | None => None
        | Some m =>
            Some (NULL, set_err_indicator (Some (PyExc_OSError, m)) (set_dl_err None hw.2),
                  [Parse args kwargs (Some outs); Opened f RTLD_LAZY hw.1;
                   Diagnosed (Some m); ErrorSet PyExc_OSError (Some m)])
        end
      else
        let pw := Dl.dlsym hw.1 "__qq_methoddef" hw.2 in
        if pw.1 =? NULL then
          match dl_err pw.2 with
          | None => None
          | Some m =>
              Some (NULL,
                    set_err_indicator (Some (PyExc_OSError, m)) (set_dl_err None pw.2),
                    [Parse args kwargs (Some outs); Opened f RTLD_LAZY hw.1;
                     Resolved hw.1 "__qq_methoddef" pw.1;
                     Diagnosed (Some m); ErrorSet PyExc_OSError (Some m)])
          end
        else
          match Py.PyCFunction_NewEx pw.1 NULL NULL pw.2 with
          | None => None
          | Some rw =>
              Some (rw.1, rw.2,
                    [Parse args kwargs (Some outs); Opened f RTLD_LAZY hw.1;
                     Resolved hw.1 "__qq_methoddef" pw.1;
                     Constructed pw.1 NULL NULL rw.1])
          end
  end.
Proof.
  unfold create_callable. cbn [exec mbind prog_mbind prog_bind call handle].
  destruct (Py.vgetargskeywords _ _ _ _) as [[err|outs]|]; [done| |done].
  cbn [exec mbind prog_mbind prog_bind call handle].
  destruct (Dl.dlopen _ _ _) as [h w1]. cbn [fst snd].
  destruct (h =? NULL).
  - cbn. destruct (dl_err w1); done.
  - cbn [exec mbind prog_mbind prog_bind call handle].
    destruct (Dl.dlsym _ _ _) as [p w2]. cbn [fst snd].
    destruct (p =? NULL).
    + cbn. destruct (dl_err w2); done.
    + cbn [exec mbind prog_mbind prog_bind call handle].
      by destruct (Py.PyCFunction_NewEx p NULL NULL w2) as [[r w3]|].
Qed.

(** ** The reference model *)

Section Loader.

Variables (f : string) (flags : Z) (w : World).

(** A failed open leaves a diagnostic and nothing else. *)
Lemma dlopen_null w1 :
  Dl.dlopen f flags w = (NULL, w1) ->
  ∃ m, w1 = set_dl_err (Some m) w.
Proof.
  unfold Dl.dlopen. intros H.
  destruct (negb _); [inversion H; eauto|].
  destruct (by_name w !! f); [inversion H|].
  destruct (files w !! f) as [img|]; [|inversion H; eauto].
  destruct (Dl.binds_now flags), (so_unresolved img); inversion H; eauto.
Qed.

(** A successful open leaves the object in the table under its name,
    and touches neither the diagnostic nor the interpreter. *)
Lemma dlopen_handle h w1 :
  Dl.dlopen f flags w = (h, w1) -> h ≠ NULL ->
  ∃ a, h = Z.pos a ∧ by_name w1 !! f = Some a ∧
       dl_err w1 = dl_err w ∧ heap w1 = heap w ∧ files w1 = files w ∧
       err_indicator w1 = err_indicator w.
Proof.
  unfold Dl.dlopen. intros H Hh.
  destruct (negb _); [inversion H; by subst|].
  destruct (by_name w !! f) as [a|] eqn:E.
  { inversion H; subst. exists a. by rewrite <- E. }
  destruct (files w !! f) as [img|]; [|inversion H; by subst].
  destruct (Dl.binds_now flags), (so_unresolved img); inversion H; subst;
    try done; eexists; cbn; by rewrite lookup_insert_eq.
Qed.

End Loader.

(** What an open leaves of the world it found: the loadable objects, the
    heap and the error indicator as they were, every name of the table
    on the handle it had, every loaded object in place with the same
    image and at most one more reference. *)
Lemma dlopen_frame f flags w :
  files (Dl.dlopen f flags w).2 = files w ∧
  heap (Dl.dlopen f flags w).2 = heap w ∧
  err_indicator (Dl.dlopen f flags w).2 = err_indicator w ∧
  (∀ f' a, by_name w !! f' = Some a -> by_name (Dl.dlopen f flags w).2 !! f' = Some a) ∧
  (∀ a o, objects w !! a = Some o ->
     ∃ o', objects (Dl.dlopen f flags w).2 !! a = Some o' ∧
           lo_name o' = lo_name o ∧ lo_image o' = lo_image o ∧
           (lo_refs o <= lo_refs o' <= S (lo_refs o))%nat).
Proof.
  unfold Dl.dlopen. destruct (negb _).
  { repeat split; eauto 10. }
  destruct (by_name w !! f) as [a0|] eqn:Hname.
  { repeat split; [done|]. intros a o Ho. cbn.
    destruct (decide (a0 = a)) as [->|Hne].
    - rewrite lookup_alter_eq, Ho. cbn. eexists. split; [done|]. cbn. repeat split; lia.
    - rewrite lookup_alter_ne by done. eauto 10. }
  destruct (files w !! f) as [img|].
  2: { repeat split; eauto 10. }
  assert (Hfresh : objects w !! fresh (dom (objects w)) = None)
    by apply not_elem_of_dom, is_fresh.
  destruct (Dl.binds_now flags), (so_unresolved img); cbn; repeat split; eauto 10.
  all: try (intros f' a Ha; rewrite lookup_insert_ne; [done|congruence]).
  all: intros a o Ho; rewrite lookup_insert_ne by congruence; eauto 10.
Qed.

(** A symbol found at a non-null address changes nothing. *)
Lemma dlsym_found h s w p w2 :
  Dl.dlsym h s w = (p, w2) -> p ≠ NULL ->
  w2 = w ∧ ∃ o, deref (objects w) h = Some o ∧ so_exports (lo_image o) !! s = Some p.
Proof.
  unfold Dl.dlsym. intros H Hp.
  destruct (deref (objects w) h) as [o|]; [|inversion H; by subst].
  destruct (so_exports (lo_image o) !! s) as [q|] eqn:E; inversion H; subst; [|done].
  eauto.
Qed.

(** A lookup leaves the loader's table as it is. *)
Lemma dlsym_table h s w :
  by_name (Dl.dlsym h s w).2 = by_name w ∧
  objects (Dl.dlsym h s w).2 = objects w ∧
  mem (Dl.dlsym h s w).2 = mem w ∧
  heap (Dl.dlsym h s w).2 = heap w.
Proof.
  unfold Dl.dlsym. destruct (deref _ _) as [o|]; [|done].
  by destruct (so_exports _ !! _).
Qed.

(** For a descriptor whose flags name a calling convention, a new
    function object, never one of those already on the heap. *)
Lemma PyCFunction_NewEx_spec ml self module w d :
  mem w !! ml = Some d -> Py.call_flags_ok (ml_flags d) = true ->
  ∃ a, Py.PyCFunction_NewEx ml self module w =
         Some (Z.pos a,
               set_heap (<[a := {| m_ml := ml; m_self := self; m_module := module |}]>
                           (heap w)) w) ∧
       heap w !! a = None.
Proof.
  intros Hd Hok. unfold Py.PyCFunction_NewEx. rewrite Hd. cbn. rewrite Hok.
  eexists. split; [reflexivity|].
  apply not_elem_of_dom, is_fresh.
Qed.

(** The two ways the constructor can answer. *)
Lemma PyCFunction_NewEx_inv ml self module w r w' :
  Py.PyCFunction_NewEx ml self module w = Some (r, w') ->
  (∃ d, mem w !! ml = Some d ∧ Py.call_flags_ok (ml_flags d) = false ∧ r = NULL ∧
        w' = set_err_indicator (Some (PyExc_SystemError, Py.refusal_message d)) w) ∨
  (∃ d a, mem w !! ml = Some d ∧ Py.call_flags_ok (ml_flags d) = true ∧
          r = Z.pos a ∧ heap w !! a = None ∧
          w' = set_heap (<[a := {| m_ml := ml; m_self := self; m_module := module |}]>
                           (heap w)) w).
Proof.
  unfold Py.PyCFunction_NewEx. destruct (mem w !! ml) as [d|]; [|done]. cbn.
  destruct (Py.call_flags_ok (ml_flags d)) eqn:Hok; intros [= <- <-].
  - right. exists d. eexists. repeat split; try done.
    apply not_elem_of_dom, is_fresh.
  - left. by exists d.
Qed.

(** The constructor leaves the loader alone. *)
Lemma PyCFunction_NewEx_table ml self module w r w' :
  Py.PyCFunction_NewEx ml self module w = Some (r, w') ->
  files w' = files w ∧ by_name w' = by_name w ∧ objects w' = objects w ∧
  mem w' = mem w ∧ dl_err w' = dl_err w.
Proof.
  intros [(d & _ & _ & _ & ->)|(d & a & _ & _ & _ & _ & ->)]%PyCFunction_NewEx_inv; done.
Qed.

(** The argument parser on the format and keyword list of
    [create_callable]. *)
Lemma vgetargskeywords_filename args kwargs :
  match filename_argument args kwargs with
  | Some v =>
      Py.vgetargskeywords args kwargs "s:create_callable" ["filename"] =
        Some (match Py.convert_s v with inl err => inl err | inr f => inr [f] end)
  | None =>
      ∃ msg, Py.vgetargskeywords args kwargs "s:create_callable" ["filename"] =
               Some (inl (PyExc_TypeError, msg))
  end.
Proof.
  unfold filename_argument, Py.vgetargskeywords.
  destruct args as [|a [|a' args]], kwargs as [[|[k v] [|kv d]]|]; cbn; eauto.
  all: try by destruct (Py.convert_s a).
  unfold Py.PyDict_GetItemString. cbn.
  destruct (decide (k = Py.PyUnicode_FromString "filename")) as [->|Hk].
  - rewrite bool_decide_eq_true_2 by done. cbn. by destruct (Py.convert_s v).
  - rewrite bool_decide_eq_false_2 by done. cbn. eauto.
Qed.


(** ** The claims *)

(** C1, as stated, does not hold: a lookup that succeeds does not
    always lead to a callable.  When the descriptor behind the address
    has flags that name no calling convention, the constructor refuses
    it, and the call returns [NULL]. *)
Lemma create_callable_bad_flags_counterexample :
  ¬ (∀ self args kwargs w r w' t h p,
       exec (create_callable self args kwargs) w = Some (r, w', t) ->
       Resolved h "__qq_methoddef" p ∈ t -> p ≠ NULL -> r ≠ NULL).
Proof.
  intros H.
  eapply (H NULL [Example.str "libbad.so"] None world_with_bad_flags NULL _ _ 1 8192).
  - vm_compute. reflexivity.
  - apply list_elem_of_further, list_elem_of_further, list_elem_of_here.
  - discriminate.
  - reflexivity.
Qed.

(** C1, amended. Whenever the open succeeds, the next thing the call
    does is to look up the symbol named [__qq_methoddef] in the object
    just opened; when that gives a non-null address, the only further
    step hands that address, with a null receiver (and a null module), to
    the constructor, and the call returns what the constructor gives.  On
    the reference model, for a descriptor whose flags name a calling
    convention that is a new function object holding exactly that
    descriptor address and no receiver; for a descriptor whose flags name
    none it is [NULL], with the constructor's [SystemError] as the error
    and no object made. *)
Theorem create_callable_resolves_and_wraps self args kwargs :
  (∀ t r pre filename flags h post,
     runs (create_callable self args kwargs) t r ->
     t = (pre ++ Opened filename flags h :: post)%list -> h ≠ NULL ->
     ∃ p rest, post = Resolved h "__qq_methoddef" p :: rest ∧
               (p ≠ NULL -> rest = [Constructed p NULL NULL r]))
  ∧
  (∀ w outs h w1 p w2 d,
     Py.vgetargskeywords args kwargs "s:create_callable" ["filename"] = Some (inr outs) ->
     Dl.dlopen (out_charp outs 0) RTLD_LAZY w = (h, w1) -> h ≠ NULL ->
     Dl.dlsym h "__qq_methoddef" w1 = (p, w2) -> p ≠ NULL ->
     mem w2 !! p = Some d ->
     (Py.call_flags_ok (ml_flags d) = true ->
      ∃ r w3,
        exec (create_callable self args kwargs) w =
          Some (r, w3, [Parse args kwargs (Some outs);
                        Opened (out_charp outs 0) RTLD_LAZY h;
                        Resolved h "__qq_methoddef" p;
                        Constructed p NULL NULL r]) ∧
        r ≠ NULL ∧
        deref (heap w3) r = Some {| m_ml := p; m_self := NULL; m_module := NULL |}) ∧
     (Py.call_flags_ok (ml_flags d) = false ->
      ∃ w3,
        exec (create_callable self args kwargs) w =
          Some (NULL, w3, [Parse args kwargs (Some outs);
                           Opened (out_charp outs 0) RTLD_LAZY h;
                           Resolved h "__qq_methoddef" p;
                           Constructed p NULL NULL NULL]) ∧
        err_indicator w3 = Some (PyExc_SystemError, Py.refusal_message d) ∧
        heap w3 = heap w)).
Proof.
  split.
  - intros t r pre filename flags h post Hrun Ht Hh.
    apply create_callable_path in Hrun.
    destruct Hrun; locate pre; eexists _, _; (split; [reflexivity|done]).
  - intros w outs h w1 p w2 d Hparse Hopen Hh Hsym Hp Hd.
    pose proof (dlopen_frame (out_charp outs 0) RTLD_LAZY w) as (_ & Hheap & _).
    pose proof (dlsym_table h "__qq_methoddef" w1) as (_ & _ & _ & Hheap2).
    rewrite Hopen in Hheap. rewrite Hsym in Hheap2. cbn [fst snd] in *.
    rewrite exec_create_callable, Hparse. cbn zeta. rewrite Hopen. cbn [fst snd].
    destruct (Z.eqb_spec h NULL); [done|]. rewrite Hsym. cbn [fst snd].
    destruct (Z.eqb_spec p NULL); [done|].
    unfold Py.PyCFunction_NewEx. rewrite Hd. cbn [mbind option_bind].
    split; intros ->.
    + eexists _, _. split; [reflexivity|]. split; [done|].
      cbn. by rewrite lookup_insert_eq.
    + eexists. split; [reflexivity|]. split; [done|]. cbn. congruence.
Qed.

Lemma create_callable_resolves_and_wraps_witness :
  (∃ p rest,
     [Resolved 1 "__qq_methoddef" 8192; Constructed 8192 NULL NULL 1] =
       Resolved 1 "__qq_methoddef" p :: rest ∧
     (p ≠ NULL -> rest = [Constructed p NULL NULL 1]))
  ∧
  (∃ r w3,
     exec (create_callable NULL [Example.str "libfoo.so"] None) Example.world =
       Some (r, w3, [Parse [Example.str "libfoo.so"] None (Some ["libfoo.so"]);
                     Opened "libfoo.so" RTLD_LAZY 1;
                     Resolved 1 "__qq_methoddef" 8192;
                     Constructed 8192 NULL NULL r]) ∧
     r ≠ NULL ∧
     deref (heap w3) r = Some {| m_ml := 8192; m_self := NULL; m_module := NULL |})
  ∧
  (∃ w3,
     exec (create_callable NULL [Example.str "libbad.so"] None) world_with_bad_flags =
       Some (NULL, w3, [Parse [Example.str "libbad.so"] None (Some ["libbad.so"]);
                        Opened "libbad.so" RTLD_LAZY 1;
                        Resolved 1 "__qq_methoddef" 8192;
                        Constructed 8192 NULL NULL NULL]) ∧
     err_indicator w3 = Some (PyExc_SystemError, "bad() method: bad call flags") ∧
     heap w3 = heap world_with_bad_flags).
Proof.
  split; [|split].
  - eapply (proj1 (create_callable_resolves_and_wraps NULL [Example.str "libfoo.so"] None)
              _ 1 [_] "libfoo.so" RTLD_LAZY 1 _).
    + eapply exec_runs with (w := Example.world). vm_compute. reflexivity.
    + reflexivity.
    + discriminate.
  - eapply (proj1 (proj2 (create_callable_resolves_and_wraps NULL
                            [Example.str "libfoo.so"] None)
                     Example.world ["libfoo.so"] 1 _ 8192 _ Example.foo_def _ _ _ _ _ _)).
    reflexivity.
  - eapply (proj2 (proj2 (create_callable_resolves_and_wraps NULL
                            [Example.str "libbad.so"] None)
                     world_with_bad_flags ["libbad.so"] 1 _ 8192 _
                     {| ml_name := "bad"; ml_meth := 4096; ml_flags := 0;
                        ml_doc := None |} _ _ _ _ _ _)).
    reflexivity.
  Unshelve.
  all: try (vm_compute; reflexivity); try discriminate.
Defined.

(** C2. Whenever the open fails, the call asks the loader for its
    diagnostic, raises [OSError] with exactly that text and returns
    [NULL]; nothing else happens.  On the reference model a failed open
    always has a diagnostic, so the call returns [NULL] with the error
    indicator holding [OSError] and the loader's text, and no function
    object is made. *)
Theorem create_callable_open_failure self args kwargs :
  (∀ t r pre filename flags post,
     runs (create_callable self args kwargs) t r ->
     t = (pre ++ Opened filename flags NULL :: post)%list ->
     r = NULL ∧ ∃ msg, post = [Diagnosed msg; ErrorSet PyExc_OSError msg])
  ∧
  (∀ w outs w1,
     Py.vgetargskeywords args kwargs "s:create_callable" ["filename"] = Some (inr outs) ->
     Dl.dlopen (out_charp outs 0) RTLD_LAZY w = (NULL, w1) ->
     ∃ msg w',
       dl_err w1 = Some msg ∧
       exec (create_callable self args kwargs) w =
         Some (NULL, w', [Parse args kwargs (Some outs);
                          Opened (out_charp outs 0) RTLD_LAZY NULL;
                          Diagnosed (Some msg); ErrorSet PyExc_OSError (Some msg)]) ∧
       err_indicator w' = Some (PyExc_OSError, msg) ∧
       heap w' = heap w).
Proof.
  split.
  - intros t r pre filename flags post Hrun Ht.
    apply create_callable_path in Hrun.
    destruct Hrun; locate pre; eauto.
  - intros w outs w1 Hparse Hopen.
    destruct (dlopen_null _ _ _ _ Hopen) as [m ->].
    rewrite exec_create_callable, Hparse. cbn zeta. rewrite Hopen. cbn.
    eexists _, _. split; [reflexivity|]. split; [reflexivity|]. done.
Qed.

Lemma create_callable_open_failure_witness :
  (NULL = NULL ∧
   ∃ msg, [Diagnosed (Some "/nonexistent/path.so: cannot open shared object file: No such file or directory");
           ErrorSet PyExc_OSError (Some "/nonexistent/path.so: cannot open shared object file: No such file or directory")] =
          [Diagnosed msg; ErrorSet PyExc_OSError msg])
  ∧
  (∃ msg w',
     dl_err (Dl.dlopen "/nonexistent/path.so" RTLD_LAZY Example.world).2 = Some msg ∧
     exec (create_callable NULL [Example.str "/nonexistent/path.so"] None) Example.world =
       Some (NULL, w', [Parse [Example.str "/nonexistent/path.so"] None
                          (Some ["/nonexistent/path.so"]);
                        Opened "/nonexistent/path.so" RTLD_LAZY NULL;
                        Diagnosed (Some msg); ErrorSet PyExc_OSError (Some msg)]) ∧
     err_indicator w' = Some (PyExc_OSError, msg) ∧
     heap w' = heap Example.world).
Proof.
  split.
  - eapply (proj1 (create_callable_open_failure NULL
                     [Example.str "/nonexistent/path.so"] None)
              _ NULL [_] "/nonexistent/path.so" RTLD_LAZY _).
    + eapply exec_runs with (w := Example.world). vm_compute. reflexivity.
    + reflexivity.
  - eapply (proj2 (create_callable_open_failure NULL
                     [Example.str "/nonexistent/path.so"] None)
              Example.world ["/nonexistent/path.so"] _).
    + vm_compute. reflexivity.
    + vm_compute. reflexivity.
Defined.

(** C3. Whenever the lookup of the symbol gives [NULL], the call asks
    the loader for its diagnostic, raises [OSError] with exactly that
    text and returns [NULL].  On the reference model, when the object
    that was opened does not export [__qq_methoddef], the call returns
    [NULL] with the error indicator holding [OSError] and the loader's
    text, and no function object is made. *)
Theorem create_callable_symbol_failure self args kwargs :
  (∀ t r pre h symbol post,
     runs (create_callable self args kwargs) t r ->
     t = (pre ++ Resolved h symbol NULL :: post)%list ->
     r = NULL ∧ symbol = "__qq_methoddef" ∧
     ∃ msg, post = [Diagnosed msg; ErrorSet PyExc_OSError msg])
  ∧
  (∀ w outs h w1 o,
     Py.vgetargskeywords args kwargs "s:create_callable" ["filename"] = Some (inr outs) ->
     Dl.dlopen (out_charp outs 0) RTLD_LAZY w = (h, w1) ->
     deref (objects w1) h = Some o ->
     so_exports (lo_image o) !! "__qq_methoddef" = None ->
     ∃ msg w',
       msg = (lo_name o ++ ": undefined symbol: __qq_methoddef")%string ∧
       exec (create_callable self args kwargs) w =
         Some (NULL, w', [Parse args kwargs (Some outs);
                          Opened (out_charp outs 0) RTLD_LAZY h;
                          Resolved h "__qq_methoddef" NULL;
                          Diagnosed (Some msg); ErrorSet PyExc_OSError (Some msg)]) ∧
       err_indicator w' = Some (PyExc_OSError, msg) ∧
       heap w' = heap w).
Proof.
  split.
  - intros t r pre h symbol post Hrun Ht.
    apply create_callable_path in Hrun.
    destruct Hrun; locate pre; eauto.
  - intros w outs h w1 o Hparse Hopen Ho Hsym.
    assert (Hh : h ≠ NULL) by (intros ->; done).
    destruct (dlopen_handle _ _ _ _ _ Hopen Hh) as (a & -> & _ & _ & Hheap & _).
    rewrite exec_create_callable, Hparse. cbn zeta. rewrite Hopen. cbn [fst snd].
    unfold Dl.dlsym. rewrite Ho, Hsym. cbn.
    eexists _, _. split; [reflexivity|]. split; [reflexivity|]. done.
Qed.

Lemma create_callable_symbol_failure_witness :
  (NULL = NULL ∧ "__qq_methoddef" = "__qq_methoddef" ∧
   ∃ msg, [Diagnosed (Some "libbar.so: undefined symbol: __qq_methoddef");
           ErrorSet PyExc_OSError (Some "libbar.so: undefined symbol: __qq_methoddef")] =
          [Diagnosed msg; ErrorSet PyExc_OSError msg])
  ∧
  (∃ msg w',
     msg = "libbar.so: undefined symbol: __qq_methoddef" ∧
     exec (create_callable NULL [Example.str "libbar.so"] None) Example.world =
       Some (NULL, w', [Parse [Example.str "libbar.so"] None (Some ["libbar.so"]);
                        Opened "libbar.so" RTLD_LAZY 1;
                        Resolved 1 "__qq_methoddef" NULL;
                        Diagnosed (Some msg); ErrorSet PyExc_OSError (Some msg)]) ∧
     err_indicator w' = Some (PyExc_OSError, msg) ∧
     heap w' = heap Example.world).
Proof.
  split.
  - eapply (proj1 (create_callable_symbol_failure NULL [Example.str "libbar.so"] None)
              _ NULL [_; _] 1 "__qq_methoddef" _).
    + eapply exec_runs with (w := Example.world). vm_compute. reflexivity.
    + reflexivity.
  - eapply (proj2 (create_callable_symbol_failure NULL [Example.str "libbar.so"] None)
              Example.world ["libbar.so"] 1 _
              {| lo_name := "libbar.so"; lo_image := Example.libbar; lo_refs := 1 |}).
    + vm_compute. reflexivity.
    + vm_compute. reflexivity.
    + vm_compute. reflexivity.
    + vm_compute. reflexivity.
Defined.

(** C4. Every open the call makes asks for lazy binding, with the mode
    [RTLD_LAZY] and nothing else, and a call whose arguments were parsed
    makes that open, on the file name it was given.  On the reference
    model this open goes through for every loadable object, whatever
    references the object leaves unresolved. *)
Theorem create_callable_opens_lazily self args kwargs t r :
  runs (create_callable self args kwargs) t r ->
  (∀ outs, Parse args kwargs (Some outs) ∈ t ->
     ∃ h, Opened (out_charp outs 0) RTLD_LAZY h ∈ t) ∧
  (∀ filename flags h, Opened filename flags h ∈ t ->
     flags = RTLD_LAZY ∧ Dl.binds_lazily flags = true ∧ Dl.binds_now flags = false ∧
     ∀ w img, by_name w !! filename = None -> files w !! filename = Some img ->
       (Dl.dlopen filename flags w).1 ≠ NULL).
Proof.
  intros Hrun. apply create_callable_path in Hrun. split.
  - intros outs Hin. destruct Hrun; members; eexists; apply list_elem_of_further, list_elem_of_here.
  - intros filename flags h Hin.
    assert (flags = RTLD_LAZY) as -> by (destruct Hrun; by members).
    repeat split. intros w img Hname Hfile.
    unfold Dl.dlopen. cbn. rewrite Hname, Hfile.
    by destruct (so_unresolved img).
Qed.

Lemma create_callable_opens_lazily_witness :
  (∀ outs, Parse [Example.str "libfoo.so"] None (Some outs) ∈
             [Parse [Example.str "libfoo.so"] None (Some ["libfoo.so"]);
              Opened "libfoo.so" 1 1; Resolved 1 "__qq_methoddef" 8192;
              Constructed 8192 0 0 1] ->
     ∃ h, Opened (out_charp outs 0) RTLD_LAZY h ∈
            [Parse [Example.str "libfoo.so"] None (Some ["libfoo.so"]);
             Opened "libfoo.so" 1 1; Resolved 1 "__qq_methoddef" 8192;
             Constructed 8192 0 0 1]) ∧
  (∀ filename flags h,
     Opened filename flags h ∈
       [Parse [Example.str "libfoo.so"] None (Some ["libfoo.so"]);
        Opened "libfoo.so" 1 1; Resolved 1 "__qq_methoddef" 8192;
        Constructed 8192 0 0 1] ->
     flags = RTLD_LAZY ∧ Dl.binds_lazily flags = true ∧ Dl.binds_now flags = false ∧
     ∀ w img, by_name w !! filename = None -> files w !! filename = Some img ->
       (Dl.dlopen filename flags w).1 ≠ NULL).
Proof.
  apply (create_callable_opens_lazily NULL [Example.str "libfoo.so"] None _ 1).
  eapply exec_runs with (w := Example.world). vm_compute. reflexivity.
Defined.

(** C5. The argument parsing accepts a call exactly when it gives one
    value, alone as the first positional argument or alone under the
    keyword [filename], and that value is a [str] the unit [s] converts;
    the file name the call goes on with is that conversion.  With any
    other shape of arguments, or a value that is not a [str], the call
    fails: it raises [TypeError] and returns [NULL] at once. *)
Theorem create_callable_signature self args kwargs :
  (∀ outs,
     Py.vgetargskeywords args kwargs "s:create_callable" ["filename"] = Some (inr outs) <->
     ∃ cps f, filename_argument args kwargs = Some (PyUnicode cps) ∧
              Py.convert_s (PyUnicode cps) = inr f ∧ outs = [f])
  ∧
  ((∀ cps, filename_argument args kwargs ≠ Some (PyUnicode cps)) ->
   ∀ w, ∃ msg,
     exec (create_callable self args kwargs) w =
       Some (NULL, set_err_indicator (Some (PyExc_TypeError, msg)) w,
             [Parse args kwargs None])).
Proof.
  pose proof (vgetargskeywords_filename args kwargs) as Hparse.
  split.
  - intros outs. destruct (filename_argument args kwargs) as [v|].
    + rewrite Hparse. split.
      * intros H. destruct v; try discriminate H.
        destruct (Py.convert_s (PyUnicode cps)) as [err|f] eqn:E; [done|].
        exists cps, f. by simplify_eq.
      * intros (cps & f & ? & E & ->). simplify_eq. by rewrite E.
    + destruct Hparse as [msg ->]. split; [done|]. by intros (? & ? & ? & _).
  - intros Hshape w. rewrite exec_create_callable.
    destruct (filename_argument args kwargs) as [v|].
    + rewrite Hparse. destruct v; try (eexists; reflexivity).
      by destruct (Hshape cps).
    + destruct Hparse as [msg ->]. eauto.
Qed.

Lemma create_callable_signature_witness :
  (Py.vgetargskeywords [] (Some [(Example.str "filename", Example.str "libfoo.so")])
     "s:create_callable" ["filename"] = Some (inr ["libfoo.so"]))
  ∧
  (∃ msg,
     exec (create_callable NULL [Example.str "libfoo.so"; PyNone] None) Example.world =
       Some (NULL, set_err_indicator (Some (PyExc_TypeError, msg)) Example.world,
             [Parse [Example.str "libfoo.so"; PyNone] None None])).
Proof.
  split.
  - apply (proj1 (create_callable_signature NULL [] _)).
    exists (N_of_ascii <$> list_ascii_of_string "libfoo.so"), "libfoo.so".
    repeat split; vm_compute; reflexivity.
  - apply (proj2 (create_callable_signature NULL [Example.str "libfoo.so"; PyNone] None)).
    intros cps. vm_compute. discriminate.
Defined.

(** C6. No run of the call, on any of its paths and whatever the outside
    world answers, contains a [dlclose].  On the reference model the
    loader's table at the end of the call is the table as the open left
    it: the object stays loaded, with the reference the open took. *)
Theorem create_callable_never_releases self args kwargs :
  (∀ t r, runs (create_callable self args kwargs) t r ->
     ∀ h status, Closed h status ∉ t)
  ∧
  (∀ w outs r w' t,
     Py.vgetargskeywords args kwargs "s:create_callable" ["filename"] = Some (inr outs) ->
     exec (create_callable self args kwargs) w = Some (r, w', t) ->
     by_name w' = by_name (Dl.dlopen (out_charp outs 0) RTLD_LAZY w).2 ∧
     objects w' = objects (Dl.dlopen (out_charp outs 0) RTLD_LAZY w).2 ∧
     mem w' = mem (Dl.dlopen (out_charp outs 0) RTLD_LAZY w).2).
Proof.
  split.
  - intros t r Hrun h status Hin. apply create_callable_path in Hrun.
    destruct Hrun; members.
  - intros w outs r w' t Hparse Hexec.
    rewrite exec_create_callable, Hparse in Hexec. cbn zeta in Hexec.
    destruct (Dl.dlopen _ _ w) as [h w1]. cbn [fst snd] in *.
    destruct (h =? NULL).
    + destruct (dl_err w1); by simplify_eq.
    + pose proof (dlsym_table h "__qq_methoddef" w1) as (Hn & Ho & Hm & _).
      destruct (Dl.dlsym h "__qq_methoddef" w1) as [p w2]. cbn [fst snd] in *.
      destruct (p =? NULL).
      * destruct (dl_err w2); by simplify_eq.
      * destruct (Py.PyCFunction_NewEx p NULL NULL w2) as [[r3 w3]|] eqn:Hnew; [|done].
        apply PyCFunction_NewEx_table in Hnew as (_ & Hn' & Ho' & Hm' & _).
        simplify_eq. cbn [fst snd]. repeat split; congruence.
Qed.

Lemma create_callable_never_releases_witness :
  (∀ h status,
     Closed h status ∉
       [Parse [Example.str "libfoo.so"] None (Some ["libfoo.so"]);
        Opened "libfoo.so" 1 1; Resolved 1 "__qq_methoddef" 8192;
        Constructed 8192 0 0 1])
  ∧
  (∃ w', (exec (create_callable NULL [Example.str "libfoo.so"] None) Example.world)
           ≫= (fun x => Some x.1.2) = Some w' ∧
     by_name w' !! "libfoo.so" = Some 1%positive ∧
     lo_refs <$> objects w' !! 1%positive = Some 1%nat).
Proof.
  split.
  - apply (proj1 (create_callable_never_releases NULL [Example.str "libfoo.so"] None) _ 1).
    eapply exec_runs with (w := Example.world). vm_compute. reflexivity.
  - destruct (exec (create_callable NULL [Example.str "libfoo.so"] None) Example.world)
      as [[[r w'] t]|] eqn:E; [|vm_compute in E; discriminate].
    exists w'. split; [reflexivity|].
    destruct (proj2 (create_callable_never_releases NULL [Example.str "libfoo.so"] None)
                Example.world ["libfoo.so"] r w' t) as (-> & -> & _).
    + vm_compute. reflexivity.
    + exact E.
    + split; vm_compute; reflexivity.
Defined.

(** C7. For a path that parses, opens and exports, at a non-null
    address, a descriptor whose flags name a calling convention, the call
    made twice in a row returns both times: two function objects at
    different addresses, both still on the heap, both holding the same
    descriptor address and no receiver.  Calling the one and calling the
    other come to the same native call: at the entry point of that
    descriptor, under its flags, with no receiver. *)
Theorem create_callable_twice self args kwargs w outs h w1 p w2 d :
  Py.vgetargskeywords args kwargs "s:create_callable" ["filename"] = Some (inr outs) ->
  Dl.dlopen (out_charp outs 0) RTLD_LAZY w = (h, w1) -> h ≠ NULL ->
  Dl.dlsym h "__qq_methoddef" w1 = (p, w2) -> p ≠ NULL ->
  mem w2 !! p = Some d -> Py.call_flags_ok (ml_flags d) = true ->
  ∃ r1 wa t1 r2 wb t2,
    exec (create_callable self args kwargs) w = Some (r1, wa, t1) ∧
    exec (create_callable self args kwargs) wa = Some (r2, wb, t2) ∧
    r1 ≠ NULL ∧ r2 ≠ NULL ∧ r1 ≠ r2 ∧
    deref (heap wb) r1 = Some {| m_ml := p; m_self := NULL; m_module := NULL |} ∧
    deref (heap wb) r2 = Some {| m_ml := p; m_self := NULL; m_module := NULL |} ∧
    (∀ a k,
       Py.PyCFunction_Call wb r1 a k =
         Some {| Py.nc_entry := ml_meth d; Py.nc_flags := ml_flags d;
                 Py.nc_self := NULL; Py.nc_args := a; Py.nc_kwargs := k |}) ∧
    (∀ a k,
       Py.PyCFunction_Call wb r2 a k =
         Some {| Py.nc_entry := ml_meth d; Py.nc_flags := ml_flags d;
                 Py.nc_self := NULL; Py.nc_args := a; Py.nc_kwargs := k |}).
Proof.
  intros Hparse Hopen Hh Hsym Hp Hd Hok.
  destruct (dlsym_found _ _ _ _ _ Hsym Hp) as (-> & o & Ho & Hexp).
  destruct (dlopen_handle _ _ _ _ _ Hopen Hh) as (a & -> & Hname & _).
  destruct (PyCFunction_NewEx_spec p NULL NULL w1 d Hd Hok) as (a1 & Hnew1 & Hfresh1).
  set (wa := set_heap (<[a1 := {| m_ml := p; m_self := NULL; m_module := NULL |}]>
                         (heap w1)) w1) in *.
  set (wr := set_loaded (by_name wa) (alter Dl.retain a (objects wa)) (mem wa) wa).
  destruct (PyCFunction_NewEx_spec p NULL NULL wr d Hd Hok) as (a2 & Hnew2 & Hfresh2).
  assert (Hopen2 : Dl.dlopen (out_charp outs 0) RTLD_LAZY wa = (Z.pos a, wr)).
  { unfold Dl.dlopen. cbn [negb orb Z.testbit RTLD_LAZY]. cbn. by rewrite Hname. }
  assert (Hsym2 : Dl.dlsym (Z.pos a) "__qq_methoddef" wr = (p, wr)).
  { unfold Dl.dlsym. cbn in *. rewrite lookup_alter_eq, Ho. cbn. by rewrite Hexp. }
  assert (a1 ≠ a2).
  { intros <-. cbn in Hfresh2. by rewrite lookup_insert_eq in Hfresh2. }
  exists (Z.pos a1), wa. eexists.
  exists (Z.pos a2),
    (set_heap (<[a2 := {| m_ml := p; m_self := NULL; m_module := NULL |}]> (heap wr)) wr).
  eexists. split; [|split].
  - rewrite exec_create_callable, Hparse. cbn zeta. rewrite Hopen. cbn [fst snd].
    rewrite Hsym. cbn [fst snd]. destruct (Z.eqb_spec p NULL); [done|].
    rewrite Hnew1. cbn [fst snd]. reflexivity.
  - rewrite exec_create_callable, Hparse. cbn zeta. rewrite Hopen2. cbn [fst snd].
    rewrite Hsym2. cbn [fst snd]. destruct (Z.eqb_spec p NULL); [done|].
    rewrite Hnew2. cbn [fst snd]. reflexivity.
  - assert (H1 : deref (heap (set_heap (<[a2 := {| m_ml := p; m_self := NULL;
                                                   m_module := NULL |}]> (heap wr)) wr))
                   (Z.pos a1)
                 = Some {| m_ml := p; m_self := NULL; m_module := NULL |}).
    { cbn. rewrite lookup_insert_ne by done. by rewrite lookup_insert_eq. }
    assert (H2 : deref (heap (set_heap (<[a2 := {| m_ml := p; m_self := NULL;
                                                   m_module := NULL |}]> (heap wr)) wr))
                   (Z.pos a2)
                 = Some {| m_ml := p; m_self := NULL; m_module := NULL |}).
    { cbn. by rewrite lookup_insert_eq. }
    split; [done|]. split; [done|]. split; [congruence|].
    split; [done|]. split; [done|].
    split; intros args' kwargs'; unfold Py.PyCFunction_Call.
    + rewrite H1. cbn. by rewrite Hd.
    + rewrite H2. cbn. by rewrite Hd.
Qed.

Lemma create_callable_twice_witness :
  ∃ r1 wa t1 r2 wb t2,
    exec (create_callable NULL [Example.str "libfoo.so"] None) Example.world
      = Some (r1, wa, t1) ∧
    exec (create_callable NULL [Example.str "libfoo.so"] None) wa = Some (r2, wb, t2) ∧
    r1 ≠ NULL ∧ r2 ≠ NULL ∧ r1 ≠ r2 ∧
    deref (heap wb) r1 = Some {| m_ml := 8192; m_self := NULL; m_module := NULL |} ∧
    deref (heap wb) r2 = Some {| m_ml := 8192; m_self := NULL; m_module := NULL |} ∧
    (∀ a k,
       Py.PyCFunction_Call wb r1 a k =
         Some {| Py.nc_entry := 4096; Py.nc_flags := 4;
                 Py.nc_self := NULL; Py.nc_args := a; Py.nc_kwargs := k |}) ∧
    (∀ a k,
       Py.PyCFunction_Call wb r2 a k =
         Some {| Py.nc_entry := 4096; Py.nc_flags := 4;
                 Py.nc_self := NULL; Py.nc_args := a; Py.nc_kwargs := k |}).
Proof.
  eapply (create_callable_twice NULL [Example.str "libfoo.so"] None
            Example.world ["libfoo.so"] 1 _ 8192 _ Example.foo_def).
  - vm_compute. reflexivity.
  - vm_compute. reflexivity.
  - discriminate.
  - vm_compute. reflexivity.
  - discriminate.
  - vm_compute. reflexivity.
  - reflexivity.
Defined.



(** C9, as stated, does not hold: a call can fail at neither the open
    nor the symbol lookup.  The call with no argument fails in the
    argument parsing, before anything is opened. *)
Lemma create_callable_two_failure_points_counterexample :
  ¬ (∀ self args kwargs w w' t,
       exec (create_callable self args kwargs) w = Some (NULL, w', t) ->
       (∃ filename flags, Opened filename flags NULL ∈ t) ∨
       (∃ h symbol, Resolved h symbol NULL ∈ t)).
Proof.
  intros H.
  edestruct (H NULL [] None Example.world) as [(f & fl & Hin)|(h & s & Hin)].
  - vm_compute. reflexivity.
  - members.
  - members.
Qed.

(** C9, amended. A call is one straight sequence with exactly four
    failure points (the argument parsing, the open, the symbol lookup,
    the construction of the callable) and one success path, on which the
    constructor's object is returned; each of the five is possible, and
    nothing else is.  A call makes at most one open attempt and at most
    one lookup, never repeats a step, and after a failure does nothing
    but report it (the constructor reports its own) and return [NULL]. *)
Theorem create_callable_four_failure_points self args kwargs :
  (∀ t r,
     runs (create_callable self args kwargs) t r <->
       (t = [Parse args kwargs None] ∧ r = NULL) ∨
       (∃ outs msg,
          t = [Parse args kwargs (Some outs);
               Opened (out_charp outs 0) RTLD_LAZY NULL;
               Diagnosed msg; ErrorSet PyExc_OSError msg] ∧ r = NULL) ∨
       (∃ outs h msg, h ≠ NULL ∧
          t = [Parse args kwargs (Some outs);
               Opened (out_charp outs 0) RTLD_LAZY h;
               Resolved h "__qq_methoddef" NULL;
               Diagnosed msg; ErrorSet PyExc_OSError msg] ∧ r = NULL) ∨
       (∃ outs h p, h ≠ NULL ∧ p ≠ NULL ∧
          t = [Parse args kwargs (Some outs);
               Opened (out_charp outs 0) RTLD_LAZY h;
               Resolved h "__qq_methoddef" p;
               Constructed p NULL NULL NULL] ∧ r = NULL) ∨
       (∃ outs h p, h ≠ NULL ∧ p ≠ NULL ∧ r ≠ NULL ∧
          t = [Parse args kwargs (Some outs);
               Opened (out_charp outs 0) RTLD_LAZY h;
               Resolved h "__qq_methoddef" p;
               Constructed p NULL NULL r]))
  ∧
  (∀ t r, runs (create_callable self args kwargs) t r ->
     (opens t <= 1)%nat ∧ (lookups t <= 1)%nat).
Proof.
  split.
  - intros t r. rewrite create_callable_path. split.
    + intros [| | |outs h p r' Hh Hp]; eauto 10.
      destruct (decide (r' = NULL)) as [->|Hr]; eauto 15.
    + intros [[-> ->]|[(outs & msg & -> & ->)|[(outs & h & msg & Hh & -> & ->)|
                [(outs & h & p & Hh & Hp & -> & ->)|
                 (outs & h & p & Hh & Hp & Hr & ->)]]]]; by constructor.
  - intros t r Hrun. apply create_callable_path in Hrun.
    destruct Hrun; cbn; lia.
Qed.

Lemma create_callable_four_failure_points_witness :
  (opens [Parse [Example.str "libbad.so"] None (Some ["libbad.so"]);
          Opened "libbad.so" 1 1; Resolved 1 "__qq_methoddef" 8192;
          Constructed 8192 NULL NULL NULL]
     <= 1)%nat ∧
  (lookups [Parse [Example.str "libbad.so"] None (Some ["libbad.so"]);
            Opened "libbad.so" 1 1; Resolved 1 "__qq_methoddef" 8192;
            Constructed 8192 NULL NULL NULL]
     <= 1)%nat.
Proof.
  apply (proj2 (create_callable_four_failure_points NULL [Example.str "libbad.so"] None)
           _ NULL).
  apply (proj1 (create_callable_four_failure_points NULL [Example.str "libbad.so"] None)
           _ NULL).
  do 3 right. left. exists ["libbad.so"], 1, 8192.
  split; [discriminate|]. split; [discriminate|]. split; reflexivity.
Defined.

(** C10. A call whose argument parsing fails does nothing further and
    returns [NULL]: nothing is opened.  On the reference model the call
    then changes the interpreter's error indicator and nothing else: the
    loadable objects, the loader's table, the mapped descriptors, the
    loader's diagnostic and the heap are as before. *)
Theorem create_callable_bad_arguments self args kwargs :
  (∀ t r, runs (create_callable self args kwargs) t r ->
     Parse args kwargs None ∈ t ->
     t = [Parse args kwargs None] ∧ r = NULL)
  ∧
  (∀ w err,
     Py.vgetargskeywords args kwargs "s:create_callable" ["filename"] = Some (inl err) ->
     ∃ w',
       exec (create_callable self args kwargs) w =
         Some (NULL, w', [Parse args kwargs None]) ∧
       (∀ filename flags h, Opened filename flags h ∉ [Parse args kwargs None]) ∧
       files w' = files w ∧ by_name w' = by_name w ∧ objects w' = objects w ∧
       mem w' = mem w ∧ dl_err w' = dl_err w ∧ heap w' = heap w ∧
       err_indicator w' = Some err).
Proof.
  split.
  - intros t r Hrun Hin. apply create_callable_path in Hrun.
    destruct Hrun; by members.
  - intros w err Hparse. rewrite exec_create_callable, Hparse.
    eexists. split; [reflexivity|]. split; [|done].
    intros filename flags h Hin. members.
Qed.

Lemma create_callable_bad_arguments_witness :
  ([Parse [PyBytes "libfoo.so"] None None] = [Parse [PyBytes "libfoo.so"] None None] ∧
   NULL = NULL)
  ∧
  (∃ w',
     exec (create_callable NULL [PyBytes "libfoo.so"] None) Example.world =
       Some (NULL, w', [Parse [PyBytes "libfoo.so"] None None]) ∧
     (∀ filename flags h,
        Opened filename flags h ∉ [Parse [PyBytes "libfoo.so"] None None]) ∧
     files w' = files Example.world ∧ by_name w' = by_name Example.world ∧
     objects w' = objects Example.world ∧ mem w' = mem Example.world ∧
     dl_err w' = dl_err Example.world ∧ heap w' = heap Example.world ∧
     err_indicator w' = Some (PyExc_TypeError, "argument must be str")).
Proof.
  split.
  - apply (proj1 (create_callable_bad_arguments NULL [PyBytes "libfoo.so"] None)).
    + eapply exec_runs with (w := Example.world). vm_compute. reflexivity.
    + apply list_elem_of_here.
  - apply (proj2 (create_callable_bad_arguments NULL [PyBytes "libfoo.so"] None)).
    vm_compute. reflexivity.
Defined.

(** ** Further properties of the call *)


(** X1. The call itself raises nothing but [OSError], at most once, with
    the text [dlerror] has just given, and only when it returns [NULL].
    On the reference model a call that returns [NULL] has the error
    indicator set: to the parser's exception, to [OSError] with the
    loader's text, or to the [SystemError] of the constructor that gave
    [NULL]; and a call that returns an object has left the error
    indicator alone. *)
Theorem create_callable_error_contract self args kwargs :
  (∀ t r exc msg,
     runs (create_callable self args kwargs) t r ->
     ErrorSet exc msg ∈ t ->
     r = NULL ∧ exc = PyExc_OSError ∧
     ∃ pre, t = (pre ++ [Diagnosed msg; ErrorSet exc msg])%list ∧
            ∀ exc' msg', ErrorSet exc' msg' ∉ pre)
  ∧
  (∀ w r w' t,
     exec (create_callable self args kwargs) w = Some (r, w', t) ->
     (r = NULL ->
        (∃ err, Py.vgetargskeywords args kwargs "s:create_callable" ["filename"]
                  = Some (inl err) ∧ err_indicator w' = Some err) ∨
        (∃ m, Diagnosed (Some m) ∈ t ∧ err_indicator w' = Some (PyExc_OSError, m)) ∨
        (∃ p m, Constructed p NULL NULL NULL ∈ t ∧
                err_indicator w' = Some (PyExc_SystemError, m))) ∧
     (r ≠ NULL -> err_indicator w' = err_indicator w)).
Proof.
  split.
  - intros t r exc msg Hrun Hin. apply create_callable_path in Hrun.
    destruct Hrun; members; (split; [done|]); (split; [done|]).
    + eexists [_; _]. split; [done|]. intros ?? ?. members.
    + eexists [_; _; _]. split; [done|]. intros ?? ?. members.
  - intros w r w' t Hexec.
    rewrite exec_create_callable in Hexec.
    destruct (Py.vgetargskeywords _ _ _ _) as [[err|outs]|]; [| |done].
    { simplify_eq. split; [|done]. intros _. left. eauto. }
    cbn zeta in Hexec.
    pose proof (dlopen_frame (out_charp outs 0) RTLD_LAZY w) as (_ & _ & Herr & _).
    destruct (Dl.dlopen _ _ w) as [h w1] eqn:Hopen. cbn [fst snd] in *.
    destruct (Z.eqb_spec h NULL) as [->|Hh].
    { destruct (dl_err w1) as [m|]; [|done]. simplify_eq. split; [|done].
      intros _. right. left. exists m. split; [|done].
      apply list_elem_of_further, list_elem_of_further, list_elem_of_here. }
    destruct (Dl.dlsym _ _ w1) as [p w2] eqn:Hsym. cbn [fst snd] in *.
    destruct (Z.eqb_spec p NULL) as [->|Hp].
    { destruct (dl_err w2) as [m|]; [|done]. simplify_eq. split; [|done].
      intros _. right. left. exists m. split; [|done].
      do 3 apply list_elem_of_further. apply list_elem_of_here. }
    destruct (dlsym_found _ _ _ _ _ Hsym Hp) as (-> & _).
    destruct (Py.PyCFunction_NewEx p NULL NULL w1) as [[r3 w3]|] eqn:Hnew; [|done].
    simplify_eq. cbn [fst snd].
    apply PyCFunction_NewEx_inv in Hnew
      as [(d & _ & _ & -> & ->)|(d & a & _ & _ & -> & _ & ->)].
    + split; [|done]. intros _. right. right. exists p. eexists. split; [|done].
      do 3 apply list_elem_of_further. apply list_elem_of_here.
    + split; [done|]. intros _. cbn. by rewrite Herr.
Qed.

Lemma create_callable_error_contract_witness :
  (NULL = NULL ∧ PyExc_OSError = PyExc_OSError ∧
   ∃ pre,
     [Parse [Example.str "libbar.so"] None (Some ["libbar.so"]);
      Opened "libbar.so" 1 1; Resolved 1 "__qq_methoddef" 0;
      Diagnosed (Some "libbar.so: undefined symbol: __qq_methoddef");
      ErrorSet PyExc_OSError (Some "libbar.so: undefined symbol: __qq_methoddef")]
     = (pre ++ [Diagnosed (Some "libbar.so: undefined symbol: __qq_methoddef");
                ErrorSet PyExc_OSError
                  (Some "libbar.so: undefined symbol: __qq_methoddef")])%list ∧
     ∀ exc' msg', ErrorSet exc' msg' ∉ pre)
  ∧
  (∃ w', (exec (create_callable NULL [Example.str "libfoo.so"] None) Example.world)
           ≫= (fun x => Some x.1.2) = Some w' ∧
         err_indicator w' = err_indicator Example.world).
Proof.
  split.
  - apply (proj1 (create_callable_error_contract NULL [Example.str "libbar.so"] None)).
    + eapply exec_runs with (w := Example.world). vm_compute. reflexivity.
    + do 4 apply list_elem_of_further. apply list_elem_of_here.
  - destruct (exec (create_callable NULL [Example.str "libfoo.so"] None) Example.world)
      as [[[r w'] t]|] eqn:E; [|vm_compute in E; discriminate].
    exists w'. split; [reflexivity|].
    apply (proj2 (create_callable_error_contract NULL [Example.str "libfoo.so"] None)
             Example.world r w' t E).
    vm_compute in E. injection E as <- _ _. discriminate.
Defined.

(** X2. On the reference model a call that returns [NULL] leaves the
    heap of function objects as it was, and a call that returns an object
    adds exactly that one, at an address that was free, holding the
    address the lookup gave and no receiver; in both cases every function
    object made before is still there, unchanged. *)
Theorem create_callable_heap_frame self args kwargs w r w' t :
  exec (create_callable self args kwargs) w = Some (r, w', t) ->
  (r = NULL -> heap w' = heap w) ∧
  (r ≠ NULL ->
     ∃ a h p, r = Z.pos a ∧ heap w !! a = None ∧
              Resolved h "__qq_methoddef" p ∈ t ∧
              heap w' = <[a := {| m_ml := p; m_self := NULL; m_module := NULL |}]> (heap w)) ∧
  (∀ a f, heap w !! a = Some f -> heap w' !! a = Some f).
Proof.
  intros Hexec. rewrite exec_create_callable in Hexec.
  destruct (Py.vgetargskeywords _ _ _ _) as [[err|outs]|]; [by simplify_eq| |done].
  cbn zeta in Hexec.
  pose proof (dlopen_frame (out_charp outs 0) RTLD_LAZY w) as (_ & Hheap & _).
  destruct (Dl.dlopen _ _ w) as [h w1]. cbn [fst snd] in *.
  destruct (Z.eqb_spec h NULL) as [->|Hh].
  { destruct (dl_err w1); simplify_eq. cbn. by rewrite Hheap. }
  pose proof (dlsym_table h "__qq_methoddef" w1) as (_ & _ & _ & Hheap2).
  destruct (Dl.dlsym _ _ w1) as [p w2]. cbn [fst snd] in *.
  destruct (Z.eqb_spec p NULL) as [->|Hp].
  { destruct (dl_err w2); simplify_eq. cbn. by rewrite Hheap2, Hheap. }
  destruct (Py.PyCFunction_NewEx p NULL NULL w2) as [[r3 w3]|] eqn:Hnew; [|done].
  simplify_eq. cbn [fst snd].
  apply PyCFunction_NewEx_inv in Hnew
    as [(d & _ & _ & -> & ->)|(d & a & _ & _ & -> & Hfresh & ->)].
  { cbn. by rewrite Hheap2, Hheap. }
  cbn. rewrite Hheap2, Hheap in *.
  split; [done|]. split.
  - intros _. exists a, h, p. repeat split; [done|].
    do 2 apply list_elem_of_further. apply list_elem_of_here.
  - intros a' f Hf. rewrite lookup_insert_ne; [done|congruence].
Qed.

Lemma create_callable_heap_frame_witness :
  ∃ w', (exec (create_callable NULL [Example.str "libbar.so"] None) Example.world)
          ≫= (fun x => Some x.1.2) = Some w' ∧
        heap w' = heap Example.world.
Proof.
  destruct (exec (create_callable NULL [Example.str "libbar.so"] None) Example.world)
    as [[[r w'] t]|] eqn:E; [|vm_compute in E; discriminate].
  exists w'. split; [reflexivity|].
  apply (create_callable_heap_frame NULL [Example.str "libbar.so"] None
           Example.world r w' t E).
  vm_compute in E. by injection E as <- _ _.
Defined.

(** X3. On the reference model a call, however it ends, unloads nothing
    and forgets nothing: the loadable objects are the same, every name of
    the loader's table stays on its handle, and every object loaded
    before is still loaded, with the same image and with as many
    references as before or one more. *)
Theorem create_callable_table_frame self args kwargs w r w' t :
  exec (create_callable self args kwargs) w = Some (r, w', t) ->
  files w' = files w ∧
  (∀ f a, by_name w !! f = Some a -> by_name w' !! f = Some a) ∧
  (∀ a o, objects w !! a = Some o ->
     ∃ o', objects w' !! a = Some o' ∧
           lo_name o' = lo_name o ∧ lo_image o' = lo_image o ∧
           (lo_refs o <= lo_refs o' <= S (lo_refs o))%nat).
Proof.
  intros Hexec.
  destruct (Py.vgetargskeywords args kwargs "s:create_callable" ["filename"])
    as [[err|outs]|] eqn:Hparse.
  - rewrite exec_create_callable, Hparse in Hexec. simplify_eq.
    repeat split; eauto 10.
  - pose proof (dlopen_frame (out_charp outs 0) RTLD_LAZY w) as (Hf & _ & _ & Hn & Ho).
    rewrite exec_create_callable, Hparse in Hexec. cbn zeta in Hexec.
    destruct (Dl.dlopen _ _ w) as [h w1]. cbn [fst snd] in *.
    destruct (h =? NULL).
    { destruct (dl_err w1); by simplify_eq. }
    pose proof (dlsym_table h "__qq_methoddef" w1) as (Hn2 & Ho2 & _).
    assert (Hf2 : files (Dl.dlsym h "__qq_methoddef" w1).2 = files w1).
    { unfold Dl.dlsym. destruct (deref _ _) as [o|]; [|done].
      by destruct (so_exports _ !! _). }
    destruct (Dl.dlsym _ _ w1) as [p w2]. cbn [fst snd] in *.
    destruct (p =? NULL).
    { destruct (dl_err w2); simplify_eq. cbn.
      rewrite Hf2, Hn2, Ho2. done. }
    destruct (Py.PyCFunction_NewEx p NULL NULL w2) as [[r3 w3]|] eqn:Hnew; [|done].
    apply PyCFunction_NewEx_table in Hnew as (Hf3 & Hn3 & Ho3 & _).
    simplify_eq. cbn [fst snd]. rewrite Hf3, Hn3, Ho3, Hf2, Hn2, Ho2. done.
  - by rewrite exec_create_callable, Hparse in Hexec.
Qed.

Lemma create_callable_table_frame_witness :
  ∃ w', (exec (create_callable NULL [Example.str "libfoo.so"] None) Example.world)
          ≫= (fun x => Some x.1.2) = Some w' ∧
        files w' = files Example.world.
Proof.
  destruct (exec (create_callable NULL [Example.str "libfoo.so"] None) Example.world)
    as [[[r w'] t]|] eqn:E; [|vm_compute in E; discriminate].
  exists w'. split; [reflexivity|].
  apply (create_callable_table_frame NULL [Example.str "libfoo.so"] None
           Example.world r w' t E).
Defined.

(** An open that fails does so whatever the pending diagnostic and the
    error indicator are, and with the same text. *)
Lemma dlopen_null_again f flags w w1 d e :
  Dl.dlopen f flags w = (NULL, w1) ->
  Dl.dlopen f flags (set_err_indicator e (set_dl_err d w)) = (NULL, set_err_indicator e w1).
Proof.
  unfold Dl.dlopen. intros H.
  destruct (negb _); [by simplify_eq|]. cbn [by_name files set_err_indicator set_dl_err].
  destruct (by_name w !! f); [done|].
  destruct (files w !! f) as [img|]; [|by simplify_eq].
  destruct (Dl.binds_now flags), (so_unresolved img); by simplify_eq.
Qed.

(** X4. On the reference model a call that fails at the open changes
    nothing but the error indicator, which holds [OSError] with the
    loader's text, and the loader's pending diagnostic, which it uses up:
    nothing is loaded and nothing allocated.  The same call made again
    fails in the same way and leaves the world exactly as the first
    left it. *)
Theorem create_callable_open_failure_repeats self args kwargs w outs w1 :
  Py.vgetargskeywords args kwargs "s:create_callable" ["filename"] = Some (inr outs) ->
  Dl.dlopen (out_charp outs 0) RTLD_LAZY w = (NULL, w1) ->
  ∃ m t,
    dl_err w1 = Some m ∧
    exec (create_callable self args kwargs) w =
      Some (NULL, set_err_indicator (Some (PyExc_OSError, m)) (set_dl_err None w), t) ∧
    exec (create_callable self args kwargs)
         (set_err_indicator (Some (PyExc_OSError, m)) (set_dl_err None w)) =
      Some (NULL, set_err_indicator (Some (PyExc_OSError, m)) (set_dl_err None w), t).
Proof.
  intros Hparse Hopen.
  destruct (dlopen_null _ _ _ _ Hopen) as [m ->].
  exists m. eexists. split; [done|].
  rewrite !exec_create_callable, Hparse. cbn zeta.
  rewrite (dlopen_null_again _ _ _ _ None (Some (PyExc_OSError, m)) Hopen), Hopen.
  cbn. done.
Qed.

Lemma create_callable_open_failure_repeats_witness :
  ∃ m t,
    dl_err (Dl.dlopen "/nonexistent/path.so" RTLD_LAZY Example.world).2 = Some m ∧
    exec (create_callable NULL [Example.str "/nonexistent/path.so"] None) Example.world =
      Some (NULL, set_err_indicator (Some (PyExc_OSError, m))
                    (set_dl_err None Example.world), t) ∧
    exec (create_callable NULL [Example.str "/nonexistent/path.so"] None)
         (set_err_indicator (Some (PyExc_OSError, m)) (set_dl_err None Example.world)) =
      Some (NULL, set_err_indicator (Some (PyExc_OSError, m))
                    (set_dl_err None Example.world), t).
Proof.
  eapply (create_callable_open_failure_repeats NULL
            [Example.str "/nonexistent/path.so"] None
            Example.world ["/nonexistent/path.so"] _).
  - vm_compute. reflexivity.
  - vm_compute. reflexivity.
Defined.

(** An object that an open has just handed out holds a reference. *)
Lemma dlopen_refs f flags w a w1 o :
  Dl.dlopen f flags w = (Z.pos a, w1) -> objects w1 !! a = Some o ->
  (1 <= lo_refs o)%nat.
Proof.
  unfold Dl.dlopen. intros H Ho.
  destruct (negb _); [done|].
  destruct (by_name w !! f) as [a0|].
  { simplify_eq. cbn in Ho. rewrite lookup_alter_eq in Ho.
    destruct (objects w !! a) as [o0|]; simplify_eq/=. lia. }
  destruct (files w !! f) as [img|]; [|done].
  destruct (Dl.binds_now flags), (so_unresolved img); simplify_eq;
    cbn in Ho; rewrite lookup_insert_eq in Ho; simplify_eq/=; lia.
Qed.

(** X5. On the reference model a call that fails at the symbol lookup is
    not undone: the object it opened stays in the loader's table under
    its name, holding at least one reference.  The same call made again
    fails with the same exception and takes one more reference. *)
Theorem create_callable_symbol_failure_leaves_object self args kwargs w outs a w1 o :
  Py.vgetargskeywords args kwargs "s:create_callable" ["filename"] = Some (inr outs) ->
  Dl.dlopen (out_charp outs 0) RTLD_LAZY w = (Z.pos a, w1) ->
  objects w1 !! a = Some o ->
  so_exports (lo_image o) !! "__qq_methoddef" = None ->
  ∃ w' t,
    exec (create_callable self args kwargs) w = Some (NULL, w', t) ∧
    by_name w' !! out_charp outs 0 = Some a ∧
    objects w' !! a = Some o ∧ (1 <= lo_refs o)%nat ∧
    ∃ w'',
      exec (create_callable self args kwargs) w' = Some (NULL, w'', t) ∧
      err_indicator w'' = err_indicator w' ∧
      by_name w'' !! out_charp outs 0 = Some a ∧
      objects w'' !! a = Some (Dl.retain o).
Proof.
  intros Hparse Hopen Ho Hsym.
  assert (Hh : Z.pos a ≠ NULL) by done.
  destruct (dlopen_handle _ _ _ _ _ Hopen Hh) as (a' & [= <-] & Hname & _).
  pose proof (dlopen_refs _ _ _ _ _ _ Hopen Ho) as Hrefs.
  eexists _, _. split; [|split; [|split; [|split]]].
  - rewrite exec_create_callable, Hparse. cbn zeta. rewrite Hopen. cbn [fst snd].
    unfold Dl.dlsym. cbn [deref]. rewrite Ho, Hsym. cbn. reflexivity.
  - done.
  - done.
  - done.
  - eexists. split; [|split; [|split]].
    + rewrite exec_create_callable, Hparse. cbn zeta.
      unfold Dl.dlopen. cbn [negb orb Z.testbit RTLD_LAZY]. cbn. rewrite Hname.
      cbn. unfold Dl.dlsym. cbn. rewrite lookup_alter_eq, Ho. cbn. rewrite Hsym.
      cbn. reflexivity.
    + done.
    + done.
    + cbn. by rewrite lookup_alter_eq, Ho.
Qed.

Lemma create_callable_symbol_failure_leaves_object_witness :
  ∃ w' t,
    exec (create_callable NULL [Example.str "libbar.so"] None) Example.world
      = Some (NULL, w', t) ∧
    by_name w' !! "libbar.so" = Some 1%positive ∧
    objects w' !! 1%positive
      = Some {| lo_name := "libbar.so"; lo_image := Example.libbar; lo_refs := 1 |} ∧
    (1 <= 1)%nat ∧
    ∃ w'',
      exec (create_callable NULL [Example.str "libbar.so"] None) w' = Some (NULL, w'', t) ∧
      err_indicator w'' = err_indicator w' ∧
      by_name w'' !! "libbar.so" = Some 1%positive ∧
      objects w'' !! 1%positive
        = Some (Dl.retain {| lo_name := "libbar.so"; lo_image := Example.libbar;
                             lo_refs := 1 |}).
Proof.
  eapply (create_callable_symbol_failure_leaves_object NULL
            [Example.str "libbar.so"] None Example.world ["libbar.so"] 1 _
            {| lo_name := "libbar.so"; lo_image := Example.libbar; lo_refs := 1 |}).
  - vm_compute. reflexivity.
  - vm_compute. reflexivity.
  - vm_compute. reflexivity.
  - vm_compute. reflexivity.
Defined.

(** One call on an object that is loaded and exports a descriptor whose
    flags name a calling convention. *)
Lemma create_callable_loaded_step self args kwargs outs p d w a o :
  Py.vgetargskeywords args kwargs "s:create_callable" ["filename"] = Some (inr outs) ->
  by_name w !! out_charp outs 0 = Some a ->
  objects w !! a = Some o ->
  so_exports (lo_image o) !! "__qq_methoddef" = Some p -> p ≠ NULL ->
  mem w !! p = Some d -> Py.call_flags_ok (ml_flags d) = true ->
  ∃ a1 w1 t,
    exec (create_callable self args kwargs) w = Some (Z.pos a1, w1, t) ∧
    heap w !! a1 = None ∧
    heap w1 = <[a1 := {| m_ml := p; m_self := NULL; m_module := NULL |}]> (heap w) ∧
    by_name w1 = by_name w ∧
    objects w1 = alter Dl.retain a (objects w) ∧
    mem w1 = mem w.
Proof.
  intros Hparse Hname Ho Hsym Hp Hd Hok.
  set (wr := set_loaded (by_name w) (alter Dl.retain a (objects w)) (mem w) w).
  destruct (PyCFunction_NewEx_spec p NULL NULL wr d Hd Hok) as (a1 & Hnew & Hfresh).
  exists a1,
    (set_heap (<[a1 := {| m_ml := p; m_self := NULL; m_module := NULL |}]> (heap wr)) wr).
  eexists. split; [|done].
  rewrite exec_create_callable, Hparse. cbn zeta.
  assert (Dl.dlopen (out_charp outs 0) RTLD_LAZY w = (Z.pos a, wr)) as ->.
  { unfold Dl.dlopen. cbn [negb orb Z.testbit RTLD_LAZY]. cbn. by rewrite Hname. }
  cbn [fst snd].
  assert (Dl.dlsym (Z.pos a) "__qq_methoddef" wr = (p, wr)) as ->.
  { unfold Dl.dlsym. cbn. rewrite lookup_alter_eq, Ho. cbn. by rewrite Hsym. }
  cbn [fst snd]. destruct (Z.eqb_spec p NULL); [done|].
  rewrite Hnew. reflexivity.
Qed.

(** X6. On the reference model, [n] calls in a row on a loaded object
    that exports a descriptor whose flags name a calling convention all
    return: [n] function objects at [n] different addresses, none of
    which was in use before and all of which are on the heap at the end,
    every one holding the same descriptor address and no receiver.  The
    heap has grown by exactly [n] objects, nothing that was on it has
    changed, and the shared object holds [n] more references than before:
    no call gives back the reference it took. *)
Theorem create_callable_repeated self args kwargs outs p d n w a o :
  Py.vgetargskeywords args kwargs "s:create_callable" ["filename"] = Some (inr outs) ->
  by_name w !! out_charp outs 0 = Some a ->
  objects w !! a = Some o ->
  so_exports (lo_image o) !! "__qq_methoddef" = Some p -> p ≠ NULL ->
  mem w !! p = Some d -> Py.call_flags_ok (ml_flags d) = true ->
  ∃ rs wn,
    call_times n self args kwargs w = Some (rs, wn) ∧
    List.length rs = n ∧ NoDup rs ∧
    (∀ r, r ∈ rs ->
       r ≠ NULL ∧ deref (heap w) r = None ∧
       deref (heap wn) r = Some {| m_ml := p; m_self := NULL; m_module := NULL |}) ∧
    (∀ a' f, heap w !! a' = Some f -> heap wn !! a' = Some f) ∧
    size (heap wn) = (size (heap w) + n)%nat ∧
    by_name wn !! out_charp outs 0 = Some a ∧
    ∃ on, objects wn !! a = Some on ∧ lo_name on = lo_name o ∧
          lo_image on = lo_image o ∧ lo_refs on = (lo_refs o + n)%nat.
Proof.
  intros Hparse. revert w o. induction n as [|n IH]; intros w o Hname Ho Hsym Hp Hd Hok.
  { exists [], w. cbn. split; [done|]. split; [done|]. split; [constructor|].
    split; [intros r Hr; by apply elem_of_nil in Hr|].
    split; [done|]. split; [lia|]. split; [done|].
    exists o. repeat split; [done|lia]. }
  destruct (create_callable_loaded_step self args kwargs outs p d w a o
              Hparse Hname Ho Hsym Hp Hd Hok)
    as (a1 & w1 & t & Hexec & Hfresh & Hheap & Hn & Hobj & Hmem).
  destruct (IH w1 (Dl.retain o)) as
    (rs & wn & Hrest & Hlen & Hdup & Hrs & Hframe & Hsize & Hname' & on & Hon & ? & ? & Hrefs);
    [by rewrite Hn|by rewrite Hobj, lookup_alter_eq, Ho|done|done|by rewrite Hmem|done|].
  assert (Hold : ∀ a' f, heap w !! a' = Some f -> heap w1 !! a' = Some f).
  { intros a' f Hf. rewrite Hheap, lookup_insert_ne; [done|congruence]. }
  exists (Z.pos a1 :: rs), wn. cbn [call_times]. rewrite Hexec, Hrest.
  split; [done|]. split; [cbn; lia|]. split; [|split; [|split; [|split; [|split]]]].
  - constructor; [|done]. intros Hin. destruct (Hrs _ Hin) as (_ & Hnone & _).
    cbn in Hnone. by rewrite Hheap, lookup_insert_eq in Hnone.
  - intros r Hr. apply elem_of_cons in Hr as [->|Hr].
    + split; [done|]. split; [done|]. cbn. apply Hframe.
      by rewrite Hheap, lookup_insert_eq.
    + destruct (Hrs _ Hr) as (Hnz & Hnone & Hsome). split; [done|]. split; [|done].
      destruct r as [|b|b]; try done. cbn in *.
      rewrite Hheap in Hnone. by apply lookup_insert_None in Hnone as [? _].
  - eauto.
  - rewrite Hsize, Hheap, map_size_insert_None by done. lia.
  - done.
  - exists on. cbn in *. repeat split; [done|congruence|congruence|lia].
Qed.

Lemma create_callable_repeated_witness :
  ∃ rs wn,
    call_times 3 NULL [Example.str "libfoo.so"] None world_with_libfoo = Some (rs, wn) ∧
    List.length rs = 3%nat ∧ NoDup rs ∧
    (∀ r, r ∈ rs ->
       r ≠ NULL ∧ deref (heap world_with_libfoo) r = None ∧
       deref (heap wn) r = Some {| m_ml := 8192; m_self := NULL; m_module := NULL |}) ∧
    (∀ a' f, heap world_with_libfoo !! a' = Some f -> heap wn !! a' = Some f) ∧
    size (heap wn) = (size (heap world_with_libfoo) + 3)%nat ∧
    by_name wn !! "libfoo.so" = Some 1%positive ∧
    ∃ on, objects wn !! 1%positive = Some on ∧ lo_name on = "libfoo.so" ∧
          lo_image on = Example.libfoo ∧ lo_refs on = (1 + 3)%nat.
Proof.
  apply (create_callable_repeated NULL [Example.str "libfoo.so"] None ["libfoo.so"]
           8192 Example.foo_def 3 world_with_libfoo 1%positive
           {| lo_name := "libfoo.so"; lo_image := Example.libfoo; lo_refs := 1 |}).
  - vm_compute. reflexivity.
  - vm_compute. reflexivity.
  - vm_compute. reflexivity.
  - vm_compute. reflexivity.
  - discriminate.
  - vm_compute. reflexivity.
  - reflexivity.
Defined.

(** X7. When the object exports [__qq_methoddef] with the null address
    as its value, the lookup gives [NULL] although nothing failed.  The
    call takes it for a failure: with no diagnostic pending in the
    loader, [dlerror] gives a null pointer and the call hands that null
    message to [PyErr_SetString], which is undefined; the call has no
    defined outcome. *)
Theorem create_callable_null_symbol self args kwargs w outs h w1 o :
  Py.vgetargskeywords args kwargs "s:create_callable" ["filename"] = Some (inr outs) ->
  dl_err w = None ->
  Dl.dlopen (out_charp outs 0) RTLD_LAZY w = (h, w1) ->
  deref (objects w1) h = Some o ->
  so_exports (lo_image o) !! "__qq_methoddef" = Some NULL ->
  handle (dlsym h "__qq_methoddef") w1 = Some (NULL, w1) ∧
  handle dlerror w1 = Some (None, set_dl_err None w1) ∧
  handle (PyErr_SetString PyExc_OSError None) (set_dl_err None w1) = None ∧
  exec (create_callable self args kwargs) w = None ∧
  runs (create_callable self args kwargs)
    [Parse args kwargs (Some outs); Opened (out_charp outs 0) RTLD_LAZY h;
     Resolved h "__qq_methoddef" NULL; Diagnosed None; ErrorSet PyExc_OSError None]
    NULL.
Proof.
  intros Hparse Hdl Hopen Ho Hsym.
  assert (Hh : h ≠ NULL) by (intros ->; done).
  destruct (dlopen_handle _ _ _ _ _ Hopen Hh) as (a & -> & _ & Hdl1 & _).
  rewrite Hdl in Hdl1.
  assert (Hlookup : Dl.dlsym (Z.pos a) "__qq_methoddef" w1 = (NULL, w1)).
  { unfold Dl.dlsym. by rewrite Ho, Hsym. }
  split; [cbn; by rewrite Hlookup|].
  split; [cbn; unfold Dl.dlerror; by rewrite Hdl1|].
  split; [done|]. split.
  - rewrite exec_create_callable, Hparse. cbn zeta. rewrite Hopen. cbn [fst snd].
    rewrite Hlookup. cbn. by rewrite Hdl1.
  - apply create_callable_path. by constructor.
Qed.

Lemma create_callable_null_symbol_witness :
  exec (create_callable NULL [Example.str "libnull.so"] None) world_with_null_symbol
    = None.
Proof.
  eapply (create_callable_null_symbol NULL [Example.str "libnull.so"] None
            world_with_null_symbol ["libnull.so"] 1 _
            {| lo_name := "libnull.so";
               lo_image := {| so_exports := {["__qq_methoddef" := NULL]};
                              so_data := ∅; so_unresolved := [] |};
               lo_refs := 1 |}).
  - vm_compute. reflexivity.
  - reflexivity.
  - vm_compute. reflexivity.
  - vm_compute. reflexivity.
  - vm_compute. reflexivity.
Defined.

(** [strlen] stops at the first zero byte, wherever it is. *)
Lemma strlen_app_lt a s :
  (Py.strlen s < String.length s)%nat ->
  (Py.strlen (a ++ s) < String.length (a ++ s))%nat.
Proof.
  intros H. induction a as [|c a IH]; [done|].
  change (String c a ++ s) with (String c (a ++ s)).
  cbn [Py.strlen String.length]. destruct (Ascii.eqb c zero); lia.
Qed.

(** The encoding of a [str] that holds U+0000 holds a zero byte. *)
Lemma PyUnicode_AsUTF8_nul cps s :
  Py.PyUnicode_AsUTF8 cps = Some s -> 0%N ∈ cps ->
  (Py.strlen s < String.length s)%nat.
Proof.
  revert s. induction cps as [|c cps IH]; intros s Hs Hin.
  { by apply elem_of_nil in Hin. }
  cbn in Hs.
  destruct (Py.utf8_of_code_point c) as [bs|] eqn:Hc; [|done].
  destruct (Py.PyUnicode_AsUTF8 cps) as [rest|]; [|done].
  cbn in Hs. simplify_eq.
  apply elem_of_cons in Hin as [<-|Hin].
  - vm_compute in Hc. simplify_eq.
    change (Py.strlen (String zero rest) < String.length (String zero rest))%nat.
    cbn. lia.
  - by apply strlen_app_lt, IH.
Qed.

(** What the unit [s] accepts. *)
Lemma convert_s_inr v s :
  Py.convert_s v = inr s ->
  ∃ cps, v = PyUnicode cps ∧ Py.PyUnicode_AsUTF8 cps = Some s ∧
         Py.strlen s = String.length s.
Proof.
  destruct v; try done. cbn.
  destruct (Py.PyUnicode_AsUTF8 cps) as [sarg|] eqn:Hs; [|done].
  destruct (Nat.eqb_spec (Py.strlen sarg) (String.length sarg)); [|done].
  intros [= <-]. by exists cps.
Qed.

(** X8. A file name that holds the character U+0000 never reaches the
    loader: on the reference model the call fails in the argument
    parsing, with [ValueError] (or [UnicodeEncodeError] when the [str]
    cannot be encoded at all), and returns [NULL] at once.  So every name
    the call opens is the whole UTF-8 encoding of the [str] it was given,
    with no zero byte inside. *)
Theorem create_callable_rejects_nul self args kwargs :
  (∀ cps w,
     filename_argument args kwargs = Some (PyUnicode cps) -> 0%N ∈ cps ->
     ∃ exc msg,
       (exc = PyExc_ValueError ∨ exc = PyExc_UnicodeEncodeError) ∧
       exec (create_callable self args kwargs) w =
         Some (NULL, set_err_indicator (Some (exc, msg)) w, [Parse args kwargs None]))
  ∧
  (∀ w r w' t filename flags h,
     exec (create_callable self args kwargs) w = Some (r, w', t) ->
     Opened filename flags h ∈ t ->
     Py.strlen filename = String.length filename ∧
     ∃ cps, filename_argument args kwargs = Some (PyUnicode cps) ∧
            Py.PyUnicode_AsUTF8 cps = Some filename ∧ 0%N ∉ cps).
Proof.
  pose proof (vgetargskeywords_filename args kwargs) as Hparse.
  split.
  - intros cps w Harg Hin. rewrite Harg in Hparse.
    rewrite exec_create_callable, Hparse. cbn.
    destruct (Py.PyUnicode_AsUTF8 cps) as [s|] eqn:Hs; [|eauto 10].
    pose proof (PyUnicode_AsUTF8_nul cps s Hs Hin).
    destruct (Nat.eqb_spec (Py.strlen s) (String.length s)); [lia|eauto 10].
  - intros w r w' t filename flags h Hexec Hin.
    rewrite exec_create_callable in Hexec.
    destruct (filename_argument args kwargs) as [v|].
    2: { destruct Hparse as [msg Hparse]. rewrite Hparse in Hexec.
         simplify_eq. members. }
    rewrite Hparse in Hexec.
    destruct (Py.convert_s v) as [err|s] eqn:Hconv; [simplify_eq; members|].
    destruct (convert_s_inr v s Hconv) as (cps & -> & Hs & Hlen).
    assert (filename = s) as ->.
    { cbn zeta in Hexec. change (out_charp [s] 0) with s in Hexec.
      destruct (Dl.dlopen s RTLD_LAZY w) as [h' w1]. cbn [fst snd] in Hexec.
      destruct (h' =? NULL).
      { destruct (dl_err w1); simplify_eq. by members. }
      destruct (Dl.dlsym h' "__qq_methoddef" w1) as [p w2]. cbn [fst snd] in Hexec.
      destruct (p =? NULL).
      { destruct (dl_err w2); simplify_eq. by members. }
      destruct (Py.PyCFunction_NewEx p NULL NULL w2) as [[r3 w3]|]; [|done].
      simplify_eq. by members. }
    split; [done|]. exists cps. split; [done|]. split; [done|].
    intros Hnul. pose proof (PyUnicode_AsUTF8_nul cps s Hs Hnul). lia.
Qed.

Lemma create_callable_rejects_nul_witness :
  (∃ exc msg,
     (exc = PyExc_ValueError ∨ exc = PyExc_UnicodeEncodeError) ∧
     exec (create_callable NULL [PyUnicode [108%N; 0%N; 98%N]] None) Example.world =
       Some (NULL, set_err_indicator (Some (exc, msg)) Example.world,
             [Parse [PyUnicode [108%N; 0%N; 98%N]] None None]))
  ∧
  Py.strlen "libfoo.so" = String.length "libfoo.so".
Proof.
  split.
  - apply (proj1 (create_callable_rejects_nul NULL [PyUnicode [108%N; 0%N; 98%N]] None)
             [108%N; 0%N; 98%N] Example.world).
    + reflexivity.
    + apply list_elem_of_further, list_elem_of_here.
  - destruct (exec (create_callable NULL [Example.str "libfoo.so"] None) Example.world)
      as [[[r w'] t]|] eqn:E; [|vm_compute in E; discriminate].
    eapply (proj2 (create_callable_rejects_nul NULL [Example.str "libfoo.so"] None)
              Example.world r w' t "libfoo.so" 1 1 E).
    vm_compute in E. injection E as _ _ <-.
    apply list_elem_of_further, list_elem_of_here.
Defined.

Lemma filename_argument_keyword v :
  filename_argument [] (Some [(Py.PyUnicode_FromString "filename", v)]) = Some v.
Proof. unfold filename_argument. cbn [default from_option id]. by case_decide. Qed.

(** The encoding of the [str] made from a string of 7-bit characters is
    that string. *)
Lemma PyUnicode_AsUTF8_ascii s :
  is_ascii s = true ->
  Py.PyUnicode_AsUTF8 (N_of_ascii <$> list_ascii_of_string s) = Some s.
Proof.
  unfold is_ascii. induction s as [|c s IH]; [done|].
  cbn [list_ascii_of_string forallb fmap list_fmap Py.PyUnicode_AsUTF8].
  intros [Hc Hs]%andb_prop. apply N.ltb_lt in Hc.
  fold (fmap (M := list) N_of_ascii (list_ascii_of_string s)).
  rewrite (IH Hs). unfold Py.utf8_of_code_point.
  destruct (N.ltb_spec (N_of_ascii c) 128); [|lia].
  cbn. unfold Py.byte. by rewrite ascii_N_embedding.
Qed.

(** X9. For a file name of 7-bit characters with no zero among them, the
    argument parsing gives back exactly that name, whether the [str] came
    by position or under the keyword [filename]; on the reference model
    the call then opens exactly that name, lazily, as the first thing it
    does. *)
Theorem create_callable_ascii_name self s :
  is_ascii s = true -> Py.strlen s = String.length s ->
  Py.vgetargskeywords [Py.PyUnicode_FromString s] None "s:create_callable" ["filename"]
    = Some (inr [s]) ∧
  Py.vgetargskeywords []
      (Some [(Py.PyUnicode_FromString "filename", Py.PyUnicode_FromString s)])
      "s:create_callable" ["filename"]
    = Some (inr [s]) ∧
  ∀ w r w' t,
    exec (create_callable self [Py.PyUnicode_FromString s] None) w = Some (r, w', t) ->
    ∃ rest,
      t = Parse [Py.PyUnicode_FromString s] None (Some [s])
          :: Opened s RTLD_LAZY (Dl.dlopen s RTLD_LAZY w).1 :: rest.
Proof.
  intros Hascii Hlen.
  assert (Hconv : Py.convert_s (Py.PyUnicode_FromString s) = inr s).
  { unfold Py.convert_s, Py.PyUnicode_FromString.
    rewrite (PyUnicode_AsUTF8_ascii s Hascii), Hlen.
    by rewrite Nat.eqb_refl. }
  pose proof (vgetargskeywords_filename [Py.PyUnicode_FromString s] None) as H1.
  pose proof (vgetargskeywords_filename []
                (Some [(Py.PyUnicode_FromString "filename", Py.PyUnicode_FromString s)]))
    as H2.
  rewrite filename_argument_keyword in H2. cbn [filename_argument default from_option id] in H1.
  rewrite Hconv in H1, H2.
  split; [done|]. split; [done|].
  intros w r w' t Hexec. rewrite exec_create_callable, H1 in Hexec. cbn zeta in Hexec.
  change (out_charp [s] 0) with s in Hexec.
  destruct (Dl.dlopen s RTLD_LAZY w) as [h w1]. cbn [fst snd] in *.
  destruct (h =? NULL).
  { destruct (dl_err w1); simplify_eq. eauto. }
  destruct (Dl.dlsym h "__qq_methoddef" w1) as [p w2]. cbn [fst snd] in *.
  destruct (p =? NULL).
  { destruct (dl_err w2); simplify_eq. eauto. }
  destruct (Py.PyCFunction_NewEx p NULL NULL w2) as [[r3 w3]|]; [|done].
  simplify_eq. eauto.
Qed.

Lemma create_callable_ascii_name_witness :
  Py.vgetargskeywords [Py.PyUnicode_FromString "/usr/lib/libfoo.so"] None
    "s:create_callable" ["filename"]
    = Some (inr ["/usr/lib/libfoo.so"]).
Proof.
  apply (create_callable_ascii_name NULL "/usr/lib/libfoo.so").
  - reflexivity.
  - reflexivity.
Defined.

(** X10. On the reference model it makes no difference how the one
    argument is given: alone by position (with no keyword dictionary or
    an empty one) or alone under the keyword [filename], the call returns
    the same, leaves the same world and, after the argument parsing,
    makes the same external calls with the same answers. *)
Theorem create_callable_keyword_or_position self v w :
  (fun x => (x.1.1, x.1.2, tail x.2)) <$>
    exec (create_callable self [] (Some [(Py.PyUnicode_FromString "filename", v)])) w
  = (fun x => (x.1.1, x.1.2, tail x.2)) <$> exec (create_callable self [v] None) w
  ∧
  (fun x => (x.1.1, x.1.2, tail x.2)) <$> exec (create_callable self [v] (Some [])) w
  = (fun x => (x.1.1, x.1.2, tail x.2)) <$> exec (create_callable self [v] None) w.
Proof.
  pose proof (vgetargskeywords_filename [v] None) as H1.
  pose proof (vgetargskeywords_filename []
                (Some [(Py.PyUnicode_FromString "filename", v)])) as H2.
  pose proof (vgetargskeywords_filename [v] (Some [])) as H3.
  rewrite filename_argument_keyword in H2. cbn [filename_argument default from_option id] in H1, H3.
  rewrite !exec_create_callable, H1, H2, H3.
  destruct (Py.convert_s v) as [err|f]; [done|]. cbn zeta.
  destruct (Dl.dlopen _ _ w) as [h w1]. cbn [fst snd].
  destruct (h =? NULL).
  { by destruct (dl_err w1). }
  destruct (Dl.dlsym _ _ w1) as [p w2]. cbn [fst snd].
  destruct (p =? NULL).
  { by destruct (dl_err w2). }
  by destruct (Py.PyCFunction_NewEx p NULL NULL w2) as [[r3 w3]|].
Qed.

(** X11. On the reference model a call returns an object only when all
    went well, and what it returns is then tied to the file it was asked
    for: the one argument is a [str], the object loaded under the UTF-8
    encoding of that [str] is in the loader's table when the call
    returns, holding at least one reference, and the function object
    returned holds the address that this object exports as
    [__qq_methoddef], which is not null. *)
Theorem create_callable_success_provenance self args kwargs w r w' t :
  exec (create_callable self args kwargs) w = Some (r, w', t) -> r ≠ NULL ->
  ∃ cps filename a o p,
    filename_argument args kwargs = Some (PyUnicode cps) ∧
    Py.PyUnicode_AsUTF8 cps = Some filename ∧
    by_name w' !! filename = Some a ∧
    objects w' !! a = Some o ∧ (1 <= lo_refs o)%nat ∧
    so_exports (lo_image o) !! "__qq_methoddef" = Some p ∧ p ≠ NULL ∧
    deref (heap w') r = Some {| m_ml := p; m_self := NULL; m_module := NULL |}.
Proof.
  intros Hexec Hr.
  pose proof (vgetargskeywords_filename args kwargs) as Hparse.
  rewrite exec_create_callable in Hexec.
  destruct (filename_argument args kwargs) as [v|].
  2: { destruct Hparse as [msg Hparse]. rewrite Hparse in Hexec. by simplify_eq. }
  rewrite Hparse in Hexec.
  destruct (Py.convert_s v) as [err|s] eqn:Hconv; [by simplify_eq|].
  destruct (convert_s_inr v s Hconv) as (cps & -> & Hs & _).
  cbn zeta in Hexec. change (out_charp [s] 0) with s in Hexec.
  destruct (Dl.dlopen s RTLD_LAZY w) as [h w1] eqn:Hopen. cbn [fst snd] in Hexec.
  destruct (Z.eqb_spec h NULL) as [->|Hh].
  { destruct (dl_err w1); by simplify_eq. }
  destruct (dlopen_handle _ _ _ _ _ Hopen Hh) as (a & -> & Hname & _).
  destruct (Dl.dlsym (Z.pos a) "__qq_methoddef" w1) as [p w2] eqn:Hsym.
  cbn [fst snd] in Hexec.
  destruct (Z.eqb_spec p NULL) as [->|Hp].
  { destruct (dl_err w2); by simplify_eq. }
  destruct (dlsym_found _ _ _ _ _ Hsym Hp) as (-> & o & Ho & Hexp).
  destruct (Py.PyCFunction_NewEx p NULL NULL w1) as [[r3 w3]|] eqn:Hnew; [|done].
  simplify_eq. cbn [fst snd] in *.
  apply PyCFunction_NewEx_inv in Hnew
    as [(d & _ & _ & -> & ->)|(d & a1 & _ & _ & -> & _ & ->)]; [done|].
  cbn in Ho.
  exists cps, s, a, o, p. repeat split; try done.
  - by eapply dlopen_refs.
  - cbn. by rewrite lookup_insert_eq.
Qed.

Lemma create_callable_success_provenance_witness :
  ∃ w' cps filename a o p,
    (exec (create_callable NULL [Example.str "libfoo.so"] None) Example.world)
      ≫= (fun x => Some x.1.2) = Some w' ∧
    filename_argument [Example.str "libfoo.so"] None = Some (PyUnicode cps) ∧
    Py.PyUnicode_AsUTF8 cps = Some filename ∧
    by_name w' !! filename = Some a ∧
    objects w' !! a = Some o ∧ (1 <= lo_refs o)%nat ∧
    so_exports (lo_image o) !! "__qq_methoddef" = Some p ∧ p ≠ NULL.
Proof.
  destruct (exec (create_callable NULL [Example.str "libfoo.so"] None) Example.world)
    as [[[r w'] t]|] eqn:E; [|vm_compute in E; discriminate].
  destruct (create_callable_success_provenance NULL [Example.str "libfoo.so"] None
              Example.world r w' t E)
    as (cps & filename & a & o & p & H1 & H2 & H3 & H4 & H5 & H6 & H7 & _).
  { vm_compute in E. injection E as <- _ _. discriminate. }
  exists w', cps, filename, a, o, p. by repeat split.
Defined.
